(** * Boxer request dispatch: a shallow embedding of [server/main.py] and
      [server/endpoints/repository.py]

    The development follows the two source files.  Python [str] values are
    sequences of Unicode code points, so that [len] (code points) and the
    length of the UTF-8 encoding (bytes) are different notions, as they are
    in Python.  Dictionaries that are only looked up ([Server.handlers], the
    response headers) are finite maps; dictionaries that are serialised keep
    their insertion order and are association lists.

    Outside the model: floating point numbers, dictionaries with keys that
    are not strings, cyclic values, and the cooperative scheduling of the
    event loop (one request is followed from start to end).  Of the limits
    of the interpreter, the two that [json.dumps] can meet are modelled:
    the digits of an integer conversion and the depth of nesting. *)

From Stdlib Require Import ZArith NArith List String Ascii Bool Lia Decimal DecimalZ.
From stdpp Require Import base option list gmap.

Local Open Scope N_scope.

(** ** Python strings *)

(** A [str] is a sequence of code points. *)
Definition pystr : Type := list N.

(** String literals of the source; a code point per character. *)
Definition py (s : string) : pystr := map N_of_ascii (list_ascii_of_string s).

Definition NL : N := 10.        (* "\n" *)
Definition SLASH : N := 47.     (* "/" *)
Definition DQUOTE : N := 34.    (* the double quote *)
Definition BACKSLASH : N := 92.

(** [s.split(sep)] for a separator of one character: one more piece than
    there are separators, never an empty list. *)
Fixpoint split_on (c : N) (s : pystr) : list pystr :=
  match s with
  | [] => [[]]
  | x :: s' =>
      if N.eqb x c then [] :: split_on c s'
      else match split_on c s' with
           | [] => [[x]]
           | w :: ws => (x :: w) :: ws
           end
  end.

(** [sep.join(l)] *)
Fixpoint join (sep : pystr) (l : list pystr) : pystr :=
  match l with
  | [] => []
  | w :: ws =>
      match ws with
      | [] => w
      | _ :: _ => w ++ sep ++ join sep ws
      end
  end.

(** [l[-1]] of a list that [split] returned. *)
Definition last_piece (l : list pystr) : pystr := List.last l [].

Definition pystr_eqb (a b : pystr) : bool := bool_decide (a = b).

(** [s.endswith(sfx)] *)
Definition endswith (s sfx : pystr) : bool :=
  (length sfx <=? length s)%nat && pystr_eqb (drop (length s - length sfx) s) sfx.

(** [s[:-k]] *)
Definition drop_last (k : nat) (s : pystr) : pystr := take (length s - k) s.

(** [str(n)] for the integers. *)
Fixpoint digits_of_uint (u : Decimal.uint) : pystr :=
  match u with
  | Decimal.Nil => []
  | Decimal.D0 u => 48 :: digits_of_uint u
  | Decimal.D1 u => 49 :: digits_of_uint u
  | Decimal.D2 u => 50 :: digits_of_uint u
  | Decimal.D3 u => 51 :: digits_of_uint u
  | Decimal.D4 u => 52 :: digits_of_uint u
  | Decimal.D5 u => 53 :: digits_of_uint u
  | Decimal.D6 u => 54 :: digits_of_uint u
  | Decimal.D7 u => 55 :: digits_of_uint u
  | Decimal.D8 u => 56 :: digits_of_uint u
  | Decimal.D9 u => 57 :: digits_of_uint u
  end.

Definition str_of_nat (n : nat) : pystr := digits_of_uint (Nat.to_uint n).

Definition str_of_Z (z : Z) : pystr :=
  match Z.to_int z with
  | Decimal.Pos u => digits_of_uint u
  | Decimal.Neg u => 45 :: digits_of_uint u
  end.

(** The number of decimal digits of an integer, its sign apart. *)
Definition int_digits (z : Z) : nat :=
  match Z.to_int z with
  | Decimal.Pos u | Decimal.Neg u => length (digits_of_uint u)
  end.

(** ** UTF-8, the charset of a text response *)

Definition is_surrogate (c : N) : bool := (0xD800 <=? c) && (c <=? 0xDFFF).

(** The bytes of one code point; [None] where [str.encode] raises. *)
Definition utf8_char (c : N) : option (list N) :=
  if c <? 0x80 then Some [c]
  else if c <? 0x800 then
    Some [N.lor 0xC0 (N.shiftr c 6); N.lor 0x80 (N.land c 0x3F)]
  else if c <? 0x10000 then
    if is_surrogate c then None
    else Some [N.lor 0xE0 (N.shiftr c 12);
               N.lor 0x80 (N.land (N.shiftr c 6) 0x3F);
               N.lor 0x80 (N.land c 0x3F)]
  else if c <? 0x110000 then
    Some [N.lor 0xF0 (N.shiftr c 18);
          N.lor 0x80 (N.land (N.shiftr c 12) 0x3F);
          N.lor 0x80 (N.land (N.shiftr c 6) 0x3F);
          N.lor 0x80 (N.land c 0x3F)]
  else None.

Fixpoint utf8_encode (s : pystr) : option (list N) :=
  match s with
  | [] => Some []
  | c :: s' =>
      match utf8_char c, utf8_encode s' with
      | Some b, Some bs => Some (b ++ bs)
      | _, _ => None
      end
  end.

Definition is_ascii (s : pystr) : Prop := Forall (fun c => c < 0x80) s.

(** ** Values that handlers return, and [aiohttp.web.Response] *)

Record Response := mkResponse {
  headers : gmap pystr pystr;
  status : Z;
  text : pystr
}.

(** The Python values of the model.  [PyObject t] is any other object, with
    truth value [t]; [json.dumps] does not accept it. *)
Unset Elimination Schemes.
Inductive pyval :=
| PyNone
| PyBool (b : bool)
| PyInt (z : Z)
| PyStr (s : pystr)
| PyList (l : list pyval)
| PyDict (d : list (pystr * pyval))
| PyObject (t : bool)
| PyResp (r : Response).
Set Elimination Schemes.

(** A [dict] with string keys, in insertion order; the keys are distinct. *)
Definition pydict : Type := list (pystr * pyval).

(** [bool(v)].  The truth value of a [Response] is never observed by
    [handle_request]: its test is conjoined with [not isinstance]. *)
Definition truthy (v : pyval) : bool :=
  match v with
  | PyNone => false
  | PyBool b => b
  | PyInt z => negb (z =? 0)%Z
  | PyStr s => match s with [] => false | _ :: _ => true end
  | PyList l => match l with [] => false | _ :: _ => true end
  | PyDict d => match d with [] => false | _ :: _ => true end
  | PyObject t => t
  | PyResp _ => true
  end.

(** [isinstance(v, aiohttp.web.Response)] *)
Definition is_response (v : pyval) : bool :=
  match v with PyResp _ => true | _ => false end.

(** [d.get(k)]: the value stored under [k], [None] when there is none. *)
Fixpoint dict_get (d : pydict) (k : pystr) : pyval :=
  match d with
  | [] => PyNone
  | (k', v) :: d' => if pystr_eqb k' k then v else dict_get d' k
  end.

(** [v == s] for a string literal [s]. *)
Definition eq_str (v : pyval) (s : pystr) : bool :=
  match v with
  | PyStr s' => pystr_eqb s' s
  | _ => false
  end.

(** ** [json.dumps(v, indent=2)]

    With the defaults [ensure_ascii=True] and, under an indent, the
    separators [","] and [": "]. *)

(** The limits of the interpreter that the encoder can meet.

    [int.__repr__] raises [ValueError] for an integer of more decimal
    digits than [sys.get_int_max_str_digits()]: 4300 where nobody has set
    it, and 0 for no limit, which also stands for an interpreter that has
    none.

    The encoder enters one more generator for every list or dictionary
    inside another, and raises [RecursionError] where the stack has no room
    for it.  [nesting_room] is the number of containers, one inside the
    other, that it can still enter below the outermost one: a value that
    nests no container in another is taken to fit wherever
    [handle_request] itself runs. *)
Record Limits := mkLimits {
  int_max_str_digits : nat;
  nesting_room : nat
}.

Definition int_fits (lim : Limits) (z : Z) : bool :=
  negb ((0 <? int_max_str_digits lim)%nat
        && (int_max_str_digits lim <? int_digits z)%nat).

(** [int.__repr__(z)]; [None] where it raises [ValueError]. *)
Definition int_repr (lim : Limits) (z : Z) : option pystr :=
  if int_fits lim z then Some (str_of_Z z) else None.

Definition hex_digit (d : N) : N := if d <? 10 then 48 + d else 87 + d.

(** ["{0:04x}".format(n)] for [n < 0x10000] *)
Definition hex4 (n : N) : pystr :=
  [hex_digit (n / 4096 mod 16); hex_digit (n / 256 mod 16);
   hex_digit (n / 16 mod 16); hex_digit (n mod 16)].

Definition u_escape (n : N) : pystr := BACKSLASH :: 117 :: hex4 n.

(** One character of [py_encode_basestring_ascii]: the characters from the
    space to the tilde stand for themselves, but for the backslash and the
    double quote; the others are escaped, above the basic plane as a
    surrogate pair. *)
Definition escape_char (c : N) : pystr :=
  if c =? BACKSLASH then [BACKSLASH; BACKSLASH]
  else if c =? DQUOTE then [BACKSLASH; DQUOTE]
  else if (32 <=? c) && (c <=? 126) then [c]
  else if c =? 8 then [BACKSLASH; 98]
  else if c =? 12 then [BACKSLASH; 102]
  else if c =? 10 then [BACKSLASH; 110]
  else if c =? 13 then [BACKSLASH; 114]
  else if c =? 9 then [BACKSLASH; 116]
  else if c <? 0x10000 then u_escape c
  else
    let n := c - 0x10000 in
    u_escape (N.lor 0xd800 (N.land (N.shiftr n 10) 0x3ff))
      ++ u_escape (N.lor 0xdc00 (N.land n 0x3ff)).

Definition encode_basestring_ascii (s : pystr) : pystr :=
  DQUOTE :: concat (map escape_char s) ++ [DQUOTE].

(** ["\n" + _indent * level], with [_indent] two spaces. *)
Definition newline_indent (level : nat) : pystr :=
  NL :: concat (replicate level (py "  ")).

Definition item_separator : pystr := py ",".
Definition key_separator : pystr := py ": ".

(** The items of a list and of a dictionary, each encoded by [enc]. *)
Definition encode_items (enc : pyval -> option pystr)
    : list pyval -> option (list pystr) :=
  fix go (l : list pyval) : option (list pystr) :=
    match l with
    | [] => Some []
    | x :: xs =>
        match enc x, go xs with
        | Some e, Some es => Some (e :: es)
        | _, _ => None
        end
    end.

Definition encode_pairs (enc : pyval -> option pystr)
    : list (pystr * pyval) -> option (list pystr) :=
  fix go (d : list (pystr * pyval)) : option (list pystr) :=
    match d with
    | [] => Some []
    | kv :: xs =>
        match enc (snd kv), go xs with
        | Some e, Some es =>
            Some ((encode_basestring_ascii (fst kv) ++ key_separator ++ e) :: es)
        | _, _ => None
        end
    end.

(** What [_iterencode_list] and [_iterencode_dict] put around the items. *)
Definition bracketed (opening closing : pystr) (level : nat) (es : list pystr) : pystr :=
  opening ++ newline_indent (S level)
    ++ join (item_separator ++ newline_indent (S level)) es
    ++ newline_indent level ++ closing.

(** [_iterencode], the chunks joined.  [None] where [json.dumps] raises:
    [TypeError] for an object it does not know, [ValueError] for an integer
    of too many digits, [RecursionError] for a list or dictionary that is
    [room] containers deep already. *)
Fixpoint iterencode (lim : Limits) (room : nat) (level : nat) (v : pyval)
    {struct v} : option pystr :=
  match v with
  | PyNone => Some (py "null")
  | PyBool b => Some (if b then py "true" else py "false")
  | PyInt z => int_repr lim z
  | PyStr s => Some (encode_basestring_ascii s)
  | PyList l =>
      match room with
      | O => None
      | S room' =>
          match l with
          | [] => Some (py "[]")
          | _ :: _ =>
              match encode_items (iterencode lim room' (S level)) l with
              | Some es => Some (bracketed (py "[") (py "]") level es)
              | None => None
              end
          end
      end
  | PyDict d =>
      match room with
      | O => None
      | S room' =>
          match d with
          | [] => Some (py "{}")
          | _ :: _ =>
              match encode_pairs (iterencode lim room' (S level)) d with
              | Some es => Some (bracketed (py "{") (py "}") level es)
              | None => None
              end
          end
      end
  | PyObject _ => None
  | PyResp _ => None
  end.

Definition json_dumps (lim : Limits) (v : pyval) : option pystr :=
  iterencode lim (S (nesting_room lim)) 0 v.

(** The values [json.dumps] knows how to write: built from [None],
    booleans, integers, strings, lists and dictionaries. *)
Fixpoint structured (v : pyval) : bool :=
  match v with
  | PyNone | PyBool _ | PyInt _ | PyStr _ => true
  | PyList l => forallb structured l
  | PyDict d => forallb (fun kv => structured (snd kv)) d
  | PyObject _ | PyResp _ => false
  end.

(** The values that stay within the limits: no integer of more digits than
    the limit, no container more than [room] containers deep. *)
Fixpoint within_limits (lim : Limits) (room : nat) (v : pyval) {struct v} : bool :=
  match v with
  | PyInt z => int_fits lim z
  | PyList l =>
      match room with
      | O => false
      | S room' => forallb (within_limits lim room') l
      end
  | PyDict d =>
      match room with
      | O => false
      | S room' => forallb (fun kv => within_limits lim room' (snd kv)) d
      end
  | PyNone | PyBool _ | PyStr _ | PyObject _ | PyResp _ => true
  end.

(** The values [json.dumps] can write in this interpreter. *)
Definition fits (lim : Limits) (v : pyval) : bool :=
  within_limits lim (S (nesting_room lim)) v.

(** Induction on values, through the lists and dictionaries they hold. *)
Definition pyval_ind (P : pyval -> Prop)
    (HNone : P PyNone)
    (HBool : forall b, P (PyBool b))
    (HInt : forall z, P (PyInt z))
    (HStr : forall s, P (PyStr s))
    (HList : forall l, Forall P l -> P (PyList l))
    (HDict : forall d, Forall (fun kv => P (snd kv)) d -> P (PyDict d))
    (HObject : forall t, P (PyObject t))
    (HResp : forall r, P (PyResp r)) : forall v, P v :=
  fix F (v : pyval) : P v :=
    match v with
    | PyNone => HNone
    | PyBool b => HBool b
    | PyInt z => HInt z
    | PyStr s => HStr s
    | PyList l =>
        HList l ((fix G (l : list pyval) : Forall P l :=
                    match l with
                    | [] => List.Forall_nil P
                    | x :: xs => List.Forall_cons P x xs (F x) (G xs)
                    end) l)
    | PyDict d =>
        HDict d ((fix G (d : list (pystr * pyval)) : Forall (fun kv => P (snd kv)) d :=
                    match d with
                    | [] => List.Forall_nil _
                    | kv :: xs => List.Forall_cons _ kv xs (F (snd kv)) (G xs)
                    end) d)
    | PyObject t => HObject t
    | PyResp r => HResp r
    end.

(** ** Sessions, requests and the collaborators of the server *)

(** Modelled from the spec: the credentials of [plugins.session], which is
    not among the sources ("credentials: optional uid, flags"); the fields
    are the ones [process] reads. *)
Record Credentials := mkCredentials {
  uid : pystr;
  admin : bool;
  member : bool
}.

(** Modelled from the spec: the storage handle of a session, an "optional
    resource"; [plugins.database] is not among the sources. *)
Inductive DBHandle := DB (id : nat).

(** Modelled from the spec: [plugins.session.SessionObject], "credentials:
    optional, storageHandle: optional resource".  A field that is present
    is true in a condition. *)
Record Session := mkSession {
  credentials : option Credentials;
  database : option DBHandle
}.

Inductive BodyType := Form | Json.

(** An [aiohttp.web.BaseRequest]: its decoded path, and the rest of it
    (method, query string, body), which only the body parser reads. *)
Record Request := mkRequest {
  path : pystr;
  payload : pystr
}.

(** What awaiting a handler gives: a value, or an exception, carried as the
    list [traceback.format_exception] makes of it.  The handler holds the
    session object and may have changed it. *)
Inductive Completion :=
| Return (v : pyval)
| Raise (tb : list pystr).

(** The part of the server a handler reads: [server.config]. *)
Record Config := mkConfig {
  traceback : bool;          (* config.server.traceback *)
  github_org : pystr;        (* config.github.org *)
  repos_public : pystr;      (* config.repos.public *)
  repos_private : pystr      (* config.repos.private *)
}.

(** Modelled from the spec: [plugins.basetypes.Endpoint], the HandlerEntry
    whose "invoke accepts (server, session, input) and returns a result or
    raises".  It holds the executor it was built with, and [exec] calls
    it. *)
Record Endpoint := mkEndpoint {
  exec : Config -> Session -> pydict -> Completion * Session
}.

(** The result of [plugins.formdata.parse_formdata]. *)
Inductive ParseResult :=
| Parsed (indata : pydict)
| ParseValueError (msg : pystr)      (* raise ValueError(msg) *)
| ParseOtherError.                   (* any other exception *)

(** The collaborators [handle_request] calls, and what they answer for one
    request. *)
Record Env := mkEnv {
  parse_formdata : BodyType -> Request -> ParseResult;
  get_session : Request -> Session;
  uuid4 : pystr;                               (* str(uuid.uuid4()) *)
  dumps_traceback : pyval -> list pystr;       (* the exception of json.dumps, formatted *)
  limits : Limits                              (* of the interpreter that runs the server *)
}.

Record Server := mkServer {
  config : Config;
  handlers : gmap pystr Endpoint
}.

(** ** [Server.__init__]: the endpoints are registered *)

(** A module of the [endpoints] package: its [register] attribute, if it
    has one.  The loop calls it with the server, as it is by then: the
    configuration and the handlers registered so far.  The call gives the
    endpoint, or [None] where it raises, as it does for an attribute that
    cannot be called.  [register] is taken to read the server it is given,
    not to change it. *)
Record PyModule := mkModule {
  register_attr : option (Server -> option Endpoint)
}.

(** One turn of the loop over [os.listdir("endpoints")].  [None] where
    [importlib.import_module] or the call of [register] raises, which ends
    the start-up. *)
Definition load_endpoint (import_module : pystr -> option PyModule) (cfg : Config)
    (hs : gmap pystr Endpoint) (endpoint_file : pystr) : option (gmap pystr Endpoint) :=
  if endswith endpoint_file (py ".py") then
    let endpoint := drop_last 3 endpoint_file in
    match import_module (py "endpoints." ++ endpoint) with
    | None => None
    | Some m =>
        match register_attr m with
        | Some register =>
            match register (mkServer cfg hs) with
            | Some ep => Some (<[endpoint := ep]> hs)
            | None => None
            end
        | None => Some hs
        end
    end
  else Some hs.

Fixpoint load_endpoints (import_module : pystr -> option PyModule) (cfg : Config)
    (hs : gmap pystr Endpoint) (listing : list pystr) : option (gmap pystr Endpoint) :=
  match listing with
  | [] => Some hs
  | f :: fs =>
      match load_endpoint import_module cfg hs f with
      | Some hs' => load_endpoints import_module cfg hs' fs
      | None => None
      end
  end.

(** ** [Server.handle_request] *)

Definition BOXER_VERSION : pystr := py "0.1.0".

Definition status_ok : Z := 200.
Definition status_bad_request : Z := 400.
Definition status_not_found : Z := 404.
Definition status_server_error : Z := 500.

(** What is seen of one call: the response, the session object as the call
    leaves it (if one was made), the writes to [sys.stderr] in order, and
    the names of the handlers that were awaited. *)
Record Outcome := mkOutcome {
  response : Response;
  session_after : option Session;
  stderr : list pystr;
  invoked : list pystr
}.

Inductive Result :=
| Responded (o : Outcome)
| Uncaught.                  (* an exception leaves [handle_request] *)

(** Lines 77-79: the headers every response of the server starts from. *)
Definition base_headers : gmap pystr pystr :=
  {[ py "Server" := py "ASF Infra Boxer Suite v/" ++ BOXER_VERSION ]}.

(** Lines 83-87: the handler name and the body type of a path. *)
Definition route (request_path : pystr) : pystr * BodyType :=
  let handler := last_piece (split_on SLASH request_path) in
  if endswith handler (py ".json") then (drop_last 5 handler, Json)
  else (handler, Form).

(** [if session.database: session.database = None] *)
Definition release (s : Session) : Session :=
  match database s with
  | Some _ => {| credentials := credentials s; database := None |}
  | None => s
  end.

Definition generic_error : pystr :=
  py "API error occurred. The application journal will have information. Error ID: ".

Definition stderr_header (request_path eid : pystr) : pystr :=
  py "API Endpoint " ++ request_path ++ py " got into trouble (" ++ eid ++ py "): " ++ [NL].

Definition stderr_line (eid line : pystr) : pystr :=
  eid ++ py ": " ++ line ++ [NL].

(** Lines 118-142, the [except] clause. *)
Definition contain (srv : Server) (env : Env) (req : Request)
    (hdrs : gmap pystr pystr) (session : Session) (tb : list pystr)
    (called : list pystr) : Outcome :=
  let session := release session in
  let err := join [NL] tb in
  if traceback (config srv) then
    {| response := mkResponse hdrs status_server_error
                     (py "API error occurred: " ++ [NL] ++ err);
       session_after := Some session;
       stderr := [];
       invoked := called |}
  else
    let eid := take 18 (uuid4 env) in
    {| response := mkResponse hdrs status_server_error (generic_error ++ eid);
       session_after := Some session;
       stderr := stderr_header (path req) eid
                   :: map (stderr_line eid) (split_on NL err);
       invoked := called |}.

Definition handle_request (srv : Server) (env : Env) (req : Request) : Result :=
  let hdrs := base_headers in
  let '(handler, body_type) := route (path req) in
  match parse_formdata env body_type req with
  | ParseValueError e =>
      Responded {| response := mkResponse hdrs status_bad_request e;
                   session_after := None; stderr := []; invoked := [] |}
  | ParseOtherError => Uncaught
  | Parsed indata =>
      match handlers srv !! handler with
      | Some ep =>
          let session := get_session env req in
          match exec ep (config srv) session indata with
          | (Return output, session) =>
              let session := release session in
              let hdrs := <[py "content-type" := py "application/json"]> hdrs in
              if truthy output && negb (is_response output) then
                match json_dumps (limits env) output with
                | Some jsout =>
                    let hdrs := <[py "Content-Length" := str_of_nat (length jsout)]> hdrs in
                    Responded {| response := mkResponse hdrs status_ok jsout;
                                 session_after := Some session;
                                 stderr := []; invoked := [handler] |}
                | None =>
                    Responded (contain srv env req hdrs session
                                 (dumps_traceback env output) [handler])
                end
              else
                match output with
                | PyResp r =>
                    Responded {| response := r; session_after := Some session;
                                 stderr := []; invoked := [handler] |}
                | _ =>
                    Responded {| response := mkResponse hdrs status_not_found
                                               (py "Content not found");
                                 session_after := Some session;
                                 stderr := []; invoked := [handler] |}
                end
          | (Raise tb, session) =>
              Responded (contain srv env req hdrs session tb [handler])
          end
      | None =>
          Responded {| response := mkResponse hdrs status_not_found
                                     (py "API Endpoint not found!");
                       session_after := None; stderr := []; invoked := [] |}
      end
  end.

(** ** [endpoints/repository.py] *)

Definition not_logged_in : pydict :=
  [(py "okay", PyBool false);
   (py "message", PyStr (py "You need to be logged in to access this end point"))].

(** The text [json.dumps(..., indent=2)] makes of that mapping. *)
Definition not_logged_in_json : pystr :=
  join [NL]
    [py "{";
     py "  " ++ DQUOTE :: py "okay" ++ DQUOTE :: py ": false,";
     py "  " ++ DQUOTE :: py "message" ++ DQUOTE :: py ": "
       ++ DQUOTE :: py "You need to be logged in to access this end point" ++ [DQUOTE];
     py "}"].

(** [process].  Its [create] branch (lines 73-177: the LDAP lookup, the
    GitHub and GitBox calls, the mail) is the parameter [create]. *)
Definition process (create : Config -> Session -> pydict -> Completion * Session)
    (server : Config) (session : Session) (indata : pydict) : Completion * Session :=
  match credentials session with
  | None => (Return (PyDict not_logged_in), session)
  | Some _ =>
      let action := dict_get indata (py "action") in
      if eq_str action (py "create") then create server session indata
      else (Return PyNone, session)
  end.

(** [register]: [plugins.basetypes.Endpoint(process)] *)
Definition register (create : Config -> Session -> pydict -> Completion * Session)
    (server : Config) : Endpoint :=
  mkEndpoint (process create).

(** ** Sample servers and requests, to run the definitions on *)

Definition sample_config (tb : bool) : Config :=
  mkConfig tb (py "apache") (py "/x1/repos/asf") (py "/x1/repos/private").

Definition sample_traceback : list pystr :=
  [py "Traceback (most recent call last):" ++ [NL];
   py "RuntimeError: boom" ++ [NL]].

(** The lines of that traceback, once its pieces are joined by line ends:
    every piece brings a line end of its own, which leaves empty lines. *)
Definition sample_lines : list pystr :=
  [py "Traceback (most recent call last):"; []; py "RuntimeError: boom"; []].

(** A handler that raises, one that returns [v], and a [create] branch
    that raises. *)
Definition failing : Endpoint :=
  mkEndpoint (fun _ s _ => (Raise sample_traceback, s)).

Definition returning (v : pyval) : Endpoint :=
  mkEndpoint (fun _ s _ => (Return v, s)).

Definition create_fails (server : Config) (s : Session) (indata : pydict)
    : Completion * Session :=
  (Raise sample_traceback, s).

Definition sample_server (tb : bool) : Server :=
  mkServer (sample_config tb)
    (<[py "repository" := register create_fails (sample_config tb)]>
       (<[py "boom" := failing]>
          (<[py "empty" := returning (PyDict [])]>
             {[ py "version" := returning (PyDict [(py "version", PyStr BOXER_VERSION)]) ]}))).

Definition sample_uuid : pystr := py "123e4567-e89b-42d3-a456-426614174000".

(** An interpreter as it comes: integers of up to 4300 digits, and a stack
    with room for 900 containers, one inside the other. *)
Definition sample_limits : Limits := mkLimits 4300 900.

Definition sample_env (parse : ParseResult) (session : Session) : Env :=
  mkEnv (fun _ _ => parse) (fun _ => session) sample_uuid
        (fun _ => [py "TypeError: Object is not JSON serializable" ++ [NL]])
        sample_limits.

Definition anonymous : Session := mkSession None (Some (DB 1)).

Definition committer : Session :=
  mkSession (Some (mkCredentials (py "janedoe") false false)) (Some (DB 1)).

(** The [endpoints] directory as the repository has it, and its import. *)
Definition sample_listing : list pystr := [py "repository.py"; py "__pycache__"].

Definition sample_import (name : pystr) : option PyModule :=
  if pystr_eqb name (py "endpoints.repository")
  then Some (mkModule (Some (fun server => Some (register create_fails (config server)))))
  else None.

(** The [endpoints] directory holds [x.json.py], and [endpoints.x.json]
    can be imported. *)
Definition dotted_import (name : pystr) : option PyModule :=
  if pystr_eqb name (py "endpoints.x.json")
  then Some (mkModule (Some (fun _ => Some (returning (PyInt 1)))))
  else None.

Definition dotted_registry : option (gmap pystr Endpoint) :=
  load_endpoints dotted_import (sample_config true) ∅ [py "x.json.py"].

(** A server with a handler that answers with a response of its own, and
    one that returns an object [json.dumps] does not take. *)
Definition redirect_response : Response :=
  mkResponse {[ py "Location" := py "/login" ]} 302 [].

Definition extra_server (tb : bool) : Server :=
  mkServer (sample_config tb)
    (<[py "redirect" := returning (PyResp redirect_response)]>
       {[ py "object" := returning (PyList [PyObject true]) ]}).

(** A second failing handler, with another traceback, that also gives the
    database up itself. *)
Definition other_traceback : list pystr := [py "KeyError: repository" ++ [NL]].

Definition other_failing_server : Server :=
  mkServer (sample_config false)
    {[ py "boom" := mkEndpoint (fun _ s _ => (Raise other_traceback, release s)) ]}.

(** The text [json.dumps(..., indent=2)] makes of what the [version]
    handler of the sample server returns. *)
Definition version_json : pystr :=
  join [NL]
    [py "{";
     py "  " ++ DQUOTE :: py "version" ++ DQUOTE :: py ": "
       ++ DQUOTE :: BOXER_VERSION ++ [DQUOTE];
     py "}"].

(** [10 ** 4300], written as a one and its 4300 noughts: an integer of 4301
    digits. *)
Definition big_integer : Z :=
  Z.of_uint (Decimal.D1 (Nat.iter 4300 Decimal.D0 Decimal.Nil)).

(** 2000 lists, one inside the other, around a number. *)
Definition deep_list : pyval := Nat.iter 2000 (fun v => PyList [v]) (PyInt 1).

(** A server whose one handler returns [v]. *)
Definition returning_server (v : pyval) : Server :=
  mkServer (sample_config false) {[ py "value" := returning v ]}.

(** The module [endpoints.n] can be imported and its [register], called
    with the server [srv], gives [ep]. *)
Definition registers (import_module : pystr -> option PyModule) (srv : Server)
    (n : pystr) (ep : Endpoint) : Prop :=
  exists m r, import_module (py "endpoints." ++ n) = Some m
              /\ register_attr m = Some r /\ r srv = Some ep.

(** The file [f] ends the start-up of the server [srv]: it is a [".py"]
    file and its module cannot be imported, or the [register] of its
    module raises when it is called with [srv]. *)
Definition stops_startup (import_module : pystr -> option PyModule) (srv : Server)
    (f : pystr) : Prop :=
  endswith f (py ".py") = true
  /\ (import_module (py "endpoints." ++ drop_last 3 f) = None
      \/ exists m r, import_module (py "endpoints." ++ drop_last 3 f) = Some m
                     /\ register_attr m = Some r /\ r srv = None).

(** No [register] looks at the handlers registered so far, as the one of
    [endpoints/repository.py] does not. *)
Definition ignores_handlers (import_module : pystr -> option PyModule)
    (cfg : Config) : Prop :=
  forall (name : pystr) (m : PyModule) (r : Server -> option Endpoint)
         (hs : gmap pystr Endpoint),
    import_module name = Some m -> register_attr m = Some r ->
    r (mkServer cfg hs) = r (mkServer cfg ∅).

(** A directory with a file that is no module, a module without [register]
    and the repository endpoint. *)
Definition mixed_listing : list pystr :=
  [py "README.md"; py "helpers.py"; py "repository.py"].

Definition mixed_import (name : pystr) : option PyModule :=
  if pystr_eqb name (py "endpoints.repository")
  then Some (mkModule (Some (fun server => Some (register create_fails (config server)))))
  else if pystr_eqb name (py "endpoints.helpers")
  then Some (mkModule None)
  else None.

(** A directory with a module whose [register] looks at the handlers that
    are there already: its endpoint tells how many it found. *)
Definition counting_import (name : pystr) : option PyModule :=
  if pystr_eqb name (py "endpoints.count")
  then Some (mkModule
               (Some (fun server =>
                        Some (returning (PyInt (Z.of_nat (size (handlers server))))))))
  else mixed_import name.

(** A directory with a module whose [register] is not callable. *)
Definition broken_import (name : pystr) : option PyModule :=
  if pystr_eqb name (py "endpoints.broken")
  then Some (mkModule (Some (fun _ => None)))
  else mixed_import name.

(** ** [re.match] for the pattern of [process]

    A pattern is matched from the start of the string, the greedy way, and
    what does not work out is tried again with less: the matcher takes the
    rest of the match as a continuation. *)

(** [s.startswith(p)] *)
Definition startswith (s p : pystr) : bool := pystr_eqb (take (length p) s) p.

Inductive regex :=
| Lit (s : pystr)                   (* the characters of [s] *)
| Plus (cls : N -> bool)            (* [[...]+] *)
| Opt (r : regex)                   (* [r?], [(?:r)?] *)
| Group (i : nat) (r : regex)       (* [(r)], the group [i] *)
| Seq (r1 r2 : regex)
| EndOfString.                      (* [$] *)

(** [$] holds at the end of the string and before a newline that ends
    it. *)
Definition at_end (s : pystr) : bool :=
  match s with
  | [] => true
  | c :: s' => (c =? NL) && match s' with [] => true | _ :: _ => false end
  end.

Fixpoint plus_class {R : Type} (cls : N -> bool) (s : pystr)
    (k : pystr -> option R) : option R :=
  match s with
  | [] => None
  | c :: s' =>
      if cls c then
        match plus_class cls s' k with
        | Some x => Some x
        | None => k s'
        end
      else None
  end.

Fixpoint re_run (r : regex) (s : pystr) (g : gmap nat pystr)
    (k : pystr -> gmap nat pystr -> option (gmap nat pystr))
    : option (gmap nat pystr) :=
  match r with
  | Lit l => if startswith s l then k (drop (length l) s) g else None
  | Plus cls => plus_class cls s (fun s' => k s' g)
  | Opt r' =>
      match re_run r' s g k with
      | Some x => Some x
      | None => k s g
      end
  | Group i r' =>
      re_run r' s g (fun s' g' => k s' (<[i := take (length s - length s') s]> g'))
  | Seq r1 r2 => re_run r1 s g (fun s' g' => re_run r2 s' g' k)
  | EndOfString => if at_end s then k s g else None
  end.

(** The end of a pattern: the match is found, whatever is left of the
    string. *)
Definition accept (rest : pystr) (g : gmap nat pystr) : option (gmap nat pystr) :=
  Some g.

(** [re.match(r, s)]: the groups of the match, if there is one. *)
Definition re_match (r : regex) (s : pystr) : option (gmap nat pystr) :=
  re_run r s ∅ accept.

(** [[a-z0-9]] and [[-0-9a-z]] *)
Definition lower_alnum (c : N) : bool :=
  (97 <=? c) && (c <=? 122) || (48 <=? c) && (c <=? 57).

Definition dash_lower_alnum (c : N) : bool :=
  (c =? 45) || (48 <=? c) && (c <=? 57) || (97 <=? c) && (c <=? 122).

(** Line 76: [^(?:incubator-)?([a-z0-9]+)(-[-0-9a-z]+)?\.git$]; the [^] is
    the start of the string, where [re.match] begins. *)
Definition REPO_NAME : regex :=
  Seq (Opt (Lit (py "incubator-")))
    (Seq (Group 1 (Plus lower_alnum))
       (Seq (Opt (Group 2 (Seq (Lit (py "-")) (Plus dash_lower_alnum))))
          (Seq (Lit (py ".git")) EndOfString))).

(** What a pattern matches: [matches r w rest g g'] when [r] takes [w] off
    the front of [w ++ rest] and turns the groups [g] into [g']. *)
Inductive matches : regex -> pystr -> pystr -> gmap nat pystr -> gmap nat pystr -> Prop :=
| matches_lit l rest g : matches (Lit l) l rest g g
| matches_plus cls w rest g :
    w <> [] -> Forall (fun c => cls c = true) w -> matches (Plus cls) w rest g g
| matches_opt_some r w rest g g' :
    matches r w rest g g' -> matches (Opt r) w rest g g'
| matches_opt_none r rest g : matches (Opt r) [] rest g g
| matches_group i r w rest g g' :
    matches r w rest g g' -> matches (Group i r) w rest g (<[i := w]> g')
| matches_seq r1 r2 w1 w2 rest g g1 g2 :
    matches r1 w1 (w2 ++ rest) g g1 -> matches r2 w2 rest g1 g2 ->
    matches (Seq r1 r2) (w1 ++ w2) rest g g2
| matches_end rest g : at_end rest = true -> matches EndOfString [] rest g g.

(** ** [os.path.join] *)

Definition path_join2 (path b : pystr) : pystr :=
  if startswith b [SLASH] then b
  else if match path with [] => true | _ :: _ => false end || endswith path [SLASH]
  then path ++ b
  else path ++ SLASH :: b.

Definition path_join (a : pystr) (p : list pystr) : pystr :=
  fold_left path_join2 p a.

(** ** The [create] branch of [process], lines 73-177

    The branch calls LDAP, the file system, two programs, GitHub and the
    mail.  What they answer is read from a [World]; what the branch asks
    of them is logged, call by call.  A call that raises ends the branch
    with its traceback. *)

Inductive Effect :=
| LdapLookup (pmc : pystr)                        (* lc.get_members(pmc) *)
| MakeDir (p : pystr)                             (* os.mkdir(p) *)
| WriteFile (p content : pystr)                   (* open(p, "w"), f.write *)
| AppendFile (p content : pystr)                  (* open(p, "a"), f.write *)
| RunProgram (argv : list pyval)                  (* asyncio.create_subprocess_exec *)
| HttpPost (url : pystr) (json : pyval) (hdrs : list (pystr * pystr))
| SendMail (sender : pystr) (recipients : list pystr) (subject message : pystr).

Inductive LdapAnswer :=
| LdapMembers (committer_list pmc_list : list pystr)
| LdapError (tb : list pystr).

(** A program that ran, with [proc.returncode] and [str(stderr)], or one
    that could not be started. *)
Inductive ProgramAnswer :=
| Exited (returncode : Z) (stderr_str : pystr)
| SpawnError (tb : list pystr).

Inductive HttpAnswer :=
| HttpResponse (status_code : Z) (body : pystr)     (* rv.status, await rv.text() *)
| HttpError (tb : list pystr).

Record World := mkWorld {
  github_token : pystr;                              (* config.github.token *)
  ldap_get_members : pystr -> LdapAnswer;
  path_exists : pystr -> bool;                       (* os.path.exists *)
  path_isdir : pystr -> bool;                        (* os.path.isdir *)
  mkdir_error : pystr -> option (list pystr);
  write_error : pystr -> pystr -> option (list pystr);   (* open or write raises *)
  run_program : list pyval -> ProgramAnswer;
  http_post : pystr -> pyval -> HttpAnswer;
  mail_error : option (list pystr);
  str_of : pyval -> pystr;                           (* str(v), v not a string *)
  type_error : list pystr;        (* re.match on what is not a string *)
  attribute_error : list pystr    (* an attribute the object does not have *)
}.

(** A step of the branch: it goes on with a value, or leaves the function
    (a [return] or an exception); the log of calls grows. *)
Definition Step (A : Type) : Type := list Effect -> (A + Completion) * list Effect.

Definition ret {A : Type} (a : A) : Step A := fun log => (inl a, log).

Definition bind {A B : Type} (m : Step A) (k : A -> Step B) : Step B :=
  fun log =>
    match m log with
    | (inl a, log') => k a log'
    | (inr c, log') => (inr c, log')
    end.

Definition leave {A : Type} (c : Completion) : Step A := fun log => (inr c, log).

(** A call that answers nothing: it is logged, and raises or not. *)
Definition call (e : Effect) (error : option (list pystr)) : Step unit :=
  fun log =>
    match error with
    | None => (inl tt, log ++ [e])
    | Some tb => (inr (Raise tb), log ++ [e])
    end.

(** A call that is logged and answers. *)
Definition ask {A : Type} (e : Effect) (answer : A) : Step A :=
  fun log => (inl answer, log ++ [e]).

Declare Scope step_scope.
Delimit Scope step_scope with step.
Notation "x <- m ;; k" := (bind m (fun x => k))
  (at level 100, m at next level, right associativity) : step_scope.
Notation "m ;; k" := (bind m (fun _ => k))
  (at level 100, right associativity) : step_scope.

(** [d.get(k, default)] *)
Fixpoint dict_get_or (d : pydict) (k : pystr) (dflt : pyval) : pyval :=
  match d with
  | [] => dflt
  | (k', v) :: d' => if pystr_eqb k' k then v else dict_get_or d' k dflt
  end.

(** [x in l] for strings *)
Definition in_list (x : pystr) (l : list pystr) : bool := existsb (pystr_eqb x) l.

(** ["%s" % v] and [f"{v}"] *)
Definition fmt (w : World) (v : pyval) : pystr :=
  match v with
  | PyStr s => s
  | _ => str_of w v
  end.

Definition dq (s : pystr) : pystr := DQUOTE :: s ++ [DQUOTE].

(** The lines of a text, each with its line end. *)
Definition text_lines (l : list pystr) : pystr := concat (map (fun x => x ++ [NL]) l).

Definition GB_CLONE_EXEC : pystr := py "/x1/gitbox/bin/gitbox-clone".
Definition NEW_REPO_NOTIFY : pystr := py "private@infra.apache.org".

(** [NEW_REPO_NOTIFY_MSG % locals()] *)
Definition NEW_REPO_NOTIFY_MSG (uid reponame commit_mail issue_mail
    repourl_gb repourl_gh : pystr) : pystr :=
  NL :: text_lines
    [py "A new repository has been set up by " ++ uid ++ py "@apache.org: " ++ reponame;
     [];
     py "Commit mail target: " ++ commit_mail;
     py "Dev/issue mail target: " ++ issue_mail;
     [];
     py "The repository can be found at:";
     py "GitBox: " ++ repourl_gb;
     py "GitHub: " ++ repourl_gh;
     [];
     py "With regards,";
     py "Boxer Git Management Services"].

(** [GB_GITWEB_PATH % locals()] and [GB_GITWEB_CONFIG % locals()] *)
Definition GB_GITWEB_PATH (pmc : pystr) : pystr :=
  py "/x1/gitbox/conf/httpd/gitweb." ++ pmc ++ py ".pl".

Definition gitweb_static : list pystr :=
  [py "our @stylesheets = (" ++ dq (py "/static/gitweb.css") ++ py ");";
   py "our $logo = " ++ dq (py "/static/git-logo.png") ++ py ";";
   py "our $favicon = " ++ dq (py "/static/git-favicon.png") ++ py ";";
   py "our $javascript = " ++ dq (py "/static/gitweb.js") ++ py ";"].

Definition GB_GITWEB_CONFIG (pmc : pystr) : pystr :=
  NL :: text_lines
    ([py "our $projectroot = " ++ dq (py "/x1/repos/private/" ++ pmc) ++ py ";";
      py "our $site_name = " ++ dq (py "Private repositories for Apache" ++ pmc) ++ py ";";
      py "our $site_header = "
        ++ dq (py "<h1>Apache " ++ pmc ++ py " Private Git Repos</h1>") ++ py ";";
      [];
      py "# Fix URLs for static assests to simplify the";
      py "# httpd configuration."]
     ++ gitweb_static
     ++ [py "$feature{'avatar'}{'default'} = ['gravatar'];";
         py "$feature{'highlight'}{'default'} = [1];";
         []]).

Definition EXEC_ADDITIONAL_PROJECTS : list pystr :=
  [py "board"; py "members"; py "foundation"].

(** Lines 106-116 and 117-125. *)
Definition htaccess_text (pmc : pystr) : pystr :=
  NL :: text_lines
    [py "<Location /repos/private/" ++ pmc ++ py ">";
     py "AuthType Basic";
     py "AuthName " ++ dq (py "ASF Private Repos for Apache " ++ pmc);
     py "AuthBasicProvider ldap";
     py "AuthLDAPUrl "
       ++ dq (py "ldaps://ldap-eu-ro.apache.org/ou=people,dc=apache,dc=org?uid");
     py "AuthLDAPGroupAttribute owner";
     py "AuthLDAPGroupAttributeIsDN on";
     py "Require ldap-group cn=" ++ pmc ++ py ",ou=project,ou=groups,dc=apache,dc=org";
     py "</Location>"].

Definition gitwebconf_text (pmc pmc_dir : pystr) : pystr :=
  NL :: text_lines
    ([py "our $projectroot = " ++ dq pmc_dir ++ py ";";
      py "our $site_name = "
        ++ dq (py "Private repositories for Apache " ++ pmc) ++ py ";";
      py "our $site_header = "
        ++ dq (py "<h1>ASF Private Git Repositories for Apache " ++ pmc ++ py "</h1>")
        ++ py ";"]
     ++ gitweb_static).

(** [{"okay": False, "message": msg}] *)
Definition refusal (msg : pyval) : pyval :=
  PyDict [(py "okay", PyBool false); (py "message", msg)].

Definition created : pyval :=
  PyDict [(py "okay", PyBool true); (py "message", PyStr (py "Repository created!"))].

Definition apache_graceful : list pyval :=
  [PyStr (py "/usr/bin/sudo"); PyStr (py "/usr/sbin/service");
   PyStr (py "apache2"); PyStr (py "graceful")].

(** [create_repo], lines 180-199: [True] for the status 201, the text of
    the answer for any other. *)
Definition create_repo (w : World) (server : Config) (repo : pystr) (title : pyval)
    (pmc : pystr) (private : pyval) : Step pyval :=
  let url := py "https://api.github.com/orgs/" ++ github_org server ++ py "/repos" in
  let json :=
    PyDict [(py "name", PyStr repo);
            (py "description", title);
            (py "homepage", PyStr (py "https://" ++ pmc ++ py ".apache.org/"));
            (py "private", private);
            (py "has_issues", PyBool false);
            (py "has_projects", PyBool false);
            (py "has_wiki", PyBool false)] in
  let hdrs := [(py "Authorization", py "token " ++ github_token w)] in
  (rv <- ask (HttpPost url json hdrs) (http_post w url json) ;;
   match rv with
   | HttpError tb => leave (Raise tb)
   | HttpResponse status_code body =>
       if (status_code =? 201)%Z then ret (PyBool true) else ret (PyStr body)
   end)%step.

(** Lines 83-89: the LDAP check of the ownership. *)
Definition check_ownership (w : World) (cred : Credentials) (pmc : pystr) : Step unit :=
  (if negb (admin cred)
      && negb (member cred && in_list pmc EXEC_ADDITIONAL_PROJECTS)
   then
     answer <- ask (LdapLookup pmc) (ldap_get_members w pmc) ;;
     match answer with
     | LdapError tb => leave (Raise tb)
     | LdapMembers committer_list pmc_list =>
         match pmc_list with
         | [] =>
             leave (Return (refusal (PyStr (py "Invalid project prefix '" ++ pmc
                                              ++ py "' specified"))))
         | _ :: _ =>
             if negb (in_list (uid cred) pmc_list) then
               leave (Return (refusal (PyStr
                 (py "Only (I)PMC members of this project may create repositories"))))
             else ret tt
         end
     end
   else ret tt)%step.

Definition already_exists : pyval :=
  refusal (PyStr (py "A repository by that name already exists")).

(** Lines 104-139: the directory of a project that has no private
    repository yet. *)
Definition prepare_private (w : World) (pmc pmc_dir : pystr) : Step unit :=
  (if negb (path_isdir w pmc_dir) then
     call (MakeDir pmc_dir) (mkdir_error w pmc_dir) ;;
     call (WriteFile (py "/x1/gitbox/conf/httpd/gitweb." ++ pmc ++ py ".pl")
             (gitwebconf_text pmc pmc_dir))
          (write_error w (py "/x1/gitbox/conf/httpd/gitweb." ++ pmc ++ py ".pl")
             (gitwebconf_text pmc pmc_dir)) ;;
     call (WriteFile (py "/x1/gitbox/conf/httpd/htaccess." ++ pmc) (htaccess_text pmc))
          (write_error w (py "/x1/gitbox/conf/httpd/htaccess." ++ pmc)
             (htaccess_text pmc)) ;;
     proc <- ask (RunProgram apache_graceful) (run_program w apache_graceful) ;;
     match proc with
     | SpawnError tb => leave (Raise tb)
     | Exited returncode _ =>
         (* [stderr] is [bytes], which has no [encode] *)
         if negb (returncode =? 0)%Z then leave (Raise (attribute_error w))
         else ret tt
     end
   else ret tt)%step.

(** Lines 91-142: the two URLs are made and the place of the repository
    is found free; the GitBox URL and the path go on. *)
Definition find_place (w : World) (server : Config) (cred : Credentials)
    (reponame pmc : pystr) (private : pyval) : Step (pystr * pystr) :=
  (if negb (truthy private) then
     let repo_path := path_join (repos_public server) [reponame] in
     if path_exists w repo_path then leave (Return already_exists)
     else ret (py "https://gitbox.apache.org/repos/asf/" ++ reponame, repo_path)
   else
     if negb (admin cred) then
       leave (Return (refusal (PyStr
         (py "Private repositories can only be created by Infrastructure staff"))))
     else
       let repourl_gb :=
         py "https://gitbox.apache.org/repos/private/" ++ pmc ++ py "/" ++ reponame in
       let repo_path := path_join (repos_private server) [pmc; reponame] in
       let pmc_dir := path_join (repos_private server) [pmc] in
       prepare_private w pmc pmc_dir ;;
       if path_exists w repo_path then leave (Return already_exists)
       else ret (repourl_gb, repo_path))%step.

(** Lines 144-177: the repository is made at GitHub, cloned to GitBox and
    announced. *)
Definition make_repository (w : World) (server : Config) (cred : Credentials)
    (indata : pydict) (reponame pmc : pystr) (title private : pyval)
    (repourl_gb repo_path : pystr) : Step Empty_set :=
  let repourl_gh := py "https://github.com/" ++ github_org server ++ py "/" ++ reponame in
  let commit_mail :=
    dict_get_or indata (py "commit") (PyStr (py "commits@" ++ pmc ++ py ".apache.org")) in
  let issue_mail :=
    dict_get_or indata (py "issue") (PyStr (py "dev@" ++ pmc ++ py ".apache.org")) in
  ((if truthy private then
      call (WriteFile (GB_GITWEB_PATH pmc) (GB_GITWEB_CONFIG pmc))
           (write_error w (GB_GITWEB_PATH pmc) (GB_GITWEB_CONFIG pmc))
    else ret tt) ;;
   rv <- create_repo w server reponame title pmc private ;;
   match rv with
   | PyBool true =>
       let params :=
         [PyStr (py "-c"); commit_mail; PyStr (py "-d"); title;
          PyStr (py "git@github:" ++ github_org server ++ py "/" ++ reponame);
          PyStr repo_path] in
       proc <- ask (RunProgram (PyStr GB_CLONE_EXEC :: params))
                   (run_program w (PyStr GB_CLONE_EXEC :: params)) ;;
       match proc with
       | SpawnError tb => leave (Raise tb)
       | Exited returncode stderr_str =>
           if (returncode =? 0)%Z then
             let config_path := path_join repo_path [py "config"] in
             let added :=
               NL :: py "[apache]" ++ NL :: py "    dev = " ++ fmt w issue_mail ++ [NL] in
             call (AppendFile config_path added) (write_error w config_path added) ;;
             call (SendMail (py "GitBox <gitbox@apache.org>")
                     [NEW_REPO_NOTIFY; py "private@" ++ pmc ++ py ".apache.org"]
                     (py "New GitBox/GitHub repository set up: " ++ reponame)
                     (NEW_REPO_NOTIFY_MSG (uid cred) reponame (fmt w commit_mail)
                        (fmt w issue_mail) repourl_gb repourl_gh))
                  (mail_error w) ;;
             leave (Return created)
           else leave (Return (refusal (PyStr stderr_str)))
       end
   | _ => leave (Return (refusal rv))
   end)%step.

(** [m.group(i)], for a group that took part in the match. *)
Definition group (m : gmap nat pystr) (i : nat) : pystr := default [] (m !! i).

(** Lines 73-177 as a whole. *)
Definition create_steps (w : World) (server : Config) (session : Session)
    (indata : pydict) : Step Empty_set :=
  match credentials session with
  | None => leave (Raise (attribute_error w))
  | Some cred =>
      let private := dict_get_or indata (py "private") (PyBool false) in
      match dict_get indata (py "repository") with
      | PyStr reponame =>
          match re_match REPO_NAME reponame with
          | None =>
              leave (Return (refusal (PyStr (py "Invalid repository name specified"))))
          | Some m =>
              let pmc := group m 1 in
              let title :=
                dict_get_or indata (py "title") (PyStr (py "Apache " ++ pmc)) in
              (check_ownership w cred pmc ;;
               place <- find_place w server cred reponame pmc private ;;
               make_repository w server cred indata reponame pmc title private
                 (fst place) (snd place))%step
          end
      | _ => leave (Raise (type_error w))
      end
  end.

(** How the branch ends, and what it has asked of the world by then. *)
Definition create_outcome (w : World) (server : Config) (session : Session)
    (indata : pydict) : Completion :=
  match fst (create_steps w server session indata []) with
  | inl nothing => match nothing with end
  | inr c => c
  end.

Definition create_log (w : World) (server : Config) (session : Session)
    (indata : pydict) : list Effect :=
  snd (create_steps w server session indata []).

(** The branch as [process] takes it; it leaves the session as it is. *)
Definition create (w : World) (server : Config) (session : Session)
    (indata : pydict) : Completion * Session :=
  (create_outcome w server session indata, session).

(** Who may create a repository of the project [pmc]: the staff, a member
    for one of the foundation's own projects, and whoever LDAP lists among
    the owners of the project. *)
Definition authorised (w : World) (cred : Credentials) (pmc : pystr) : Prop :=
  admin cred = true
  \/ (member cred = true /\ In pmc EXEC_ADDITIONAL_PROJECTS)
  \/ exists committer_list pmc_list,
       ldap_get_members w pmc = LdapMembers committer_list pmc_list
       /\ In (uid cred) pmc_list.

(** The calls that change something outside: all but the LDAP lookup. *)
Definition changes_something (e : Effect) : bool :=
  match e with
  | LdapLookup _ => false
  | _ => true
  end.

(** A step that only adds to the log, and the same calls whatever the log
    holds already. *)
Definition framed {A : Type} (m : Step A) : Prop :=
  forall log, m log = (fst (m []), log ++ snd (m [])).

(** A world where all goes well: LDAP knows the project [sling] and its
    owner [janedoe], no path exists, GitHub answers 201 and the programs
    exit with 0. *)
Definition fair_world : World :=
  {| github_token := py "s3cr3t";
     ldap_get_members := fun pmc =>
       if pystr_eqb pmc (py "sling")
       then LdapMembers [py "janedoe"; py "johndoe"] [py "janedoe"]
       else LdapMembers [] [];
     path_exists := fun _ => false;
     path_isdir := fun _ => false;
     mkdir_error := fun _ => None;
     write_error := fun _ _ => None;
     run_program := fun _ => Exited 0 (py "b''");
     http_post := fun _ _ => HttpResponse 201 (py "{}");
     mail_error := None;
     str_of := fun _ => py "?";
     type_error := [py "TypeError: expected string or bytes-like object" ++ [NL]];
     attribute_error :=
       [py "AttributeError: 'bytes' object has no attribute 'encode'" ++ [NL]] |}.

(** The same world with an Apache that does not reload. *)
Definition apache_down_world : World :=
  {| github_token := github_token fair_world;
     ldap_get_members := ldap_get_members fair_world;
     path_exists := path_exists fair_world;
     path_isdir := path_isdir fair_world;
     mkdir_error := mkdir_error fair_world;
     write_error := write_error fair_world;
     run_program := fun argv =>
       match argv with
       | PyStr prog :: _ =>
           if pystr_eqb prog (py "/usr/bin/sudo") then Exited 1 (py "b'failed'")
           else Exited 0 (py "b''")
       | _ => Exited 0 (py "b''")
       end;
     http_post := http_post fair_world;
     mail_error := mail_error fair_world;
     str_of := str_of fair_world;
     type_error := type_error fair_world;
     attribute_error := attribute_error fair_world |}.

Definition staff : Session :=
  mkSession (Some (mkCredentials (py "root") true true)) None.

Definition outsider : Session :=
  mkSession (Some (mkCredentials (py "mallory") false true)) None.

Definition create_request (reponame : pystr) (private : bool) : pydict :=
  [(py "action", PyStr (py "create"));
   (py "repository", PyStr reponame);
   (py "private", PyBool private)].

(** The characters of a name the pattern takes. *)
Definition name_char (c : N) : Prop :=
  dash_lower_alnum c = true \/ c = 46 \/ c = NL.

(** What [os.path.join] puts between a directory and a name. *)
Definition separator (root : pystr) : pystr :=
  if match root with [] => true | _ :: _ => false end || endswith root [SLASH]
  then [] else [SLASH].

(** The request [create_repo] sends to GitHub. *)
Definition github_request (server : Config) (repo : pystr) (title : pyval)
    (pmc : pystr) (private : pyval) : pyval :=
  PyDict [(py "name", PyStr repo);
          (py "description", title);
          (py "homepage", PyStr (py "https://" ++ pmc ++ py ".apache.org/"));
          (py "private", private);
          (py "has_issues", PyBool false);
          (py "has_projects", PyBool false);
          (py "has_wiki", PyBool false)].

Definition is_post (e : Effect) : bool :=
  match e with
  | HttpPost _ _ _ => true
  | _ => false
  end.

(** How the branch can end: an exception, the good news, or a refusal
    with a message that is a string. *)
Definition plain_ending (c : Completion) : Prop :=
  (exists tb, c = Raise tb)
  \/ c = Return created
  \/ exists msg, c = Return (refusal (PyStr msg)).

Definition ends_plainly {A : Type} (r : (A + Completion) * list Effect) : Prop :=
  match fst r with
  | inl _ => True
  | inr c => plain_ending c
  end.

(** * Properties *)

Arguments py : simpl never.
Arguments encode_basestring_ascii : simpl never.
Arguments key_separator : simpl never.
Arguments item_separator : simpl never.
Arguments newline_indent : simpl never.
Arguments bracketed : simpl never.
Arguments str_of_nat : simpl never.

(** ** Splitting and joining *)

Section Split.
Variable c : N.

Lemma split_on_cons_inv (s : pystr) : exists w ws, split_on c s = w :: ws.
Proof.
  destruct s as [|x s]; simpl; [eauto|].
  destruct (N.eqb x c); [eauto|].
  destruct (split_on c s); eauto.
Qed.

Lemma split_on_not_nil (s : pystr) : split_on c s <> [].
Proof. destruct (split_on_cons_inv s) as (w & ws & ->). discriminate. Qed.

(** Joining the pieces with the separator gives the string back. *)
Lemma join_split_on (s : pystr) : join [c] (split_on c s) = s.
Proof.
  induction s as [|x s IH]; simpl; [reflexivity|].
  destruct (N.eqb_spec x c) as [->|Hne].
  - destruct (split_on_cons_inv s) as (w & ws & Hs).
    rewrite Hs in IH |- *. simpl in IH |- *. now rewrite IH.
  - destruct (split_on_cons_inv s) as (w & ws & Hs).
    rewrite Hs in IH |- *. destruct ws; simpl in IH |- *; now rewrite IH.
Qed.

(** No piece holds the separator. *)
Lemma split_on_pieces (s : pystr) : Forall (fun w => ~ In c w) (split_on c s).
Proof.
  induction s as [|x s IH]; simpl.
  - constructor; [intros []|constructor].
  - destruct (N.eqb_spec x c) as [->|Hne].
    + constructor; [intros []|exact IH].
    + destruct (split_on c s) as [|w ws]; [repeat constructor; intros [?|[]]; congruence|].
      inversion IH; subst. constructor; [|assumption].
      intros [?|?]; [congruence|contradiction].
Qed.

(** A string without the separator is one piece. *)
Lemma split_on_whole (s : pystr) : ~ In c s -> split_on c s = [s].
Proof.
  induction s as [|x s IH]; simpl; intros Hn; [reflexivity|].
  destruct (N.eqb_spec x c) as [->|Hne]; [exfalso; apply Hn; now left|].
  rewrite IH; [reflexivity|]. intros H; apply Hn; now right.
Qed.

(** Splitting distributes over a separator. *)
Lemma split_on_app (a b : pystr) :
  split_on c (a ++ c :: b) = split_on c a ++ split_on c b.
Proof.
  induction a as [|x a IH]; simpl.
  - now rewrite N.eqb_refl.
  - destruct (N.eqb x c); [now rewrite IH|].
    rewrite IH. destruct (split_on_cons_inv a) as (w & ws & ->). reflexivity.
Qed.

Lemma last_piece_app (l l' : list pystr) :
  l' <> [] -> last_piece (l ++ l') = last_piece l'.
Proof.
  unfold last_piece. intros Hl'. induction l as [|w l IH]; [reflexivity|].
  simpl. destruct (l ++ l') eqn:E; [|exact IH].
  apply app_eq_nil in E. tauto.
Qed.

(** The last piece of [a + c + b] is [b], when [b] is free of [c]. *)
Lemma last_piece_split (a b : pystr) :
  ~ In c b -> last_piece (split_on c (a ++ c :: b)) = b.
Proof.
  intros Hb. rewrite split_on_app, last_piece_app by apply split_on_not_nil.
  now rewrite split_on_whole.
Qed.
End Split.

(** ** Suffixes *)

Lemma pystr_eqb_eq (a b : pystr) : pystr_eqb a b = true <-> a = b.
Proof. unfold pystr_eqb. apply bool_decide_eq_true. Qed.

Lemma pystr_eqb_refl (a : pystr) : pystr_eqb a a = true.
Proof. now apply pystr_eqb_eq. Qed.

Lemma endswith_spec (s sfx : pystr) :
  endswith s sfx = true <-> exists p, s = p ++ sfx.
Proof.
  unfold endswith. rewrite andb_true_iff, Nat.leb_le, pystr_eqb_eq. split.
  - intros [Hlen Hd]. exists (take (length s - length sfx) s).
    transitivity (take (length s - length sfx) s ++ drop (length s - length sfx) s).
    + symmetry. apply take_drop.
    + now rewrite Hd.
  - intros [p ->]. rewrite length_app. split; [lia|].
    replace (length p + length sfx - length sfx)%nat with (length p) by lia.
    apply drop_app_length.
Qed.

Lemma endswith_app (p sfx : pystr) : endswith (p ++ sfx) sfx = true.
Proof. apply endswith_spec. now exists p. Qed.

Lemma drop_last_app (p sfx : pystr) : drop_last (length sfx) (p ++ sfx) = p.
Proof.
  unfold drop_last. rewrite length_app.
  replace (length p + length sfx - length sfx)%nat with (length p) by lia.
  apply take_app_length.
Qed.

(** ** [json.dumps] writes ASCII *)

Lemma is_ascii_app (a b : pystr) : is_ascii a -> is_ascii b -> is_ascii (a ++ b).
Proof. unfold is_ascii. intros. now apply Forall_app. Qed.

Lemma is_ascii_cons (x : N) (a : pystr) : x < 0x80 -> is_ascii a -> is_ascii (x :: a).
Proof. unfold is_ascii. now constructor. Qed.

Lemma is_ascii_nil : is_ascii [].
Proof. constructor. Qed.

Lemma is_ascii_forallb (s : pystr) :
  forallb (fun c => c <? 0x80) s = true -> is_ascii s.
Proof.
  intros H. apply List.Forall_forall. intros c Hc.
  rewrite forallb_forall in H. apply N.ltb_lt. now apply H.
Qed.

Create HintDb ascii.
#[local] Hint Resolve is_ascii_app is_ascii_cons is_ascii_nil : ascii.

(** The literals of the source are ASCII, by evaluation. *)
Ltac ascii_literal := apply is_ascii_forallb; vm_compute; reflexivity.

Lemma digits_of_uint_ascii (u : Decimal.uint) : is_ascii (digits_of_uint u).
Proof. induction u; simpl; auto with ascii; now apply is_ascii_cons. Qed.

Lemma str_of_nat_ascii (n : nat) : is_ascii (str_of_nat n).
Proof. apply digits_of_uint_ascii. Qed.

Lemma str_of_Z_ascii (z : Z) : is_ascii (str_of_Z z).
Proof.
  unfold str_of_Z. destruct (Z.to_int z).
  - apply digits_of_uint_ascii.
  - apply is_ascii_cons; [reflexivity|apply digits_of_uint_ascii].
Qed.

Lemma hex_digit_ascii (n : N) : hex_digit (n mod 16) < 0x80.
Proof.
  assert (n mod 16 < 16) by (apply N.mod_lt; discriminate).
  unfold hex_digit. destruct (N.ltb_spec (n mod 16) 10); lia.
Qed.

Lemma u_escape_ascii (n : N) : is_ascii (u_escape n).
Proof.
  unfold u_escape, hex4.
  repeat (apply is_ascii_cons; [first [reflexivity | apply hex_digit_ascii]|]).
  apply is_ascii_nil.
Qed.

Lemma escape_char_ascii (c : N) : is_ascii (escape_char c).
Proof.
  unfold escape_char.
  destruct (c =? BACKSLASH); [ascii_literal|].
  destruct (c =? DQUOTE); [ascii_literal|].
  destruct ((32 <=? c) && (c <=? 126)) eqn:E.
  - apply andb_true_iff in E as [_ E%N.leb_le].
    apply is_ascii_cons; [lia|apply is_ascii_nil].
  - repeat (match goal with |- context [if ?b then _ else _] => destruct b end;
            [ascii_literal|]).
    destruct (c <? 0x10000); auto using u_escape_ascii with ascii.
Qed.

Lemma encode_basestring_ascii_ascii (s : pystr) : is_ascii (encode_basestring_ascii s).
Proof.
  unfold encode_basestring_ascii. apply is_ascii_cons; [reflexivity|].
  apply is_ascii_app; [|ascii_literal].
  induction s; simpl; auto using escape_char_ascii with ascii.
Qed.

Lemma newline_indent_ascii (level : nat) : is_ascii (newline_indent level).
Proof.
  unfold newline_indent. apply is_ascii_cons; [reflexivity|].
  induction level as [|level IH]; [apply is_ascii_nil|].
  cbn [replicate concat]. apply is_ascii_app; [ascii_literal|exact IH].
Qed.

Lemma join_ascii (sep : pystr) (l : list pystr) :
  is_ascii sep -> Forall is_ascii l -> is_ascii (join sep l).
Proof.
  intros Hsep Hl. induction Hl as [|w ws Hw Hws IH]; simpl; [apply is_ascii_nil|].
  destruct ws; auto with ascii.
Qed.

Lemma bracketed_ascii (o c : pystr) (level : nat) (es : list pystr) :
  is_ascii o -> is_ascii c -> Forall is_ascii es -> is_ascii (bracketed o c level es).
Proof.
  intros Ho Hc Hes. unfold bracketed.
  repeat apply is_ascii_app; auto using newline_indent_ascii.
  apply join_ascii; [|assumption].
  apply is_ascii_app; [ascii_literal|apply newline_indent_ascii].
Qed.

Section Items.
Variable enc : pyval -> option pystr.

Lemma encode_items_cons (v : pyval) (l : list pyval) :
  encode_items enc (v :: l) =
    match enc v, encode_items enc l with
    | Some e, Some es => Some (e :: es)
    | _, _ => None
    end.
Proof. reflexivity. Qed.

Lemma encode_pairs_cons (kv : pystr * pyval) (d : list (pystr * pyval)) :
  encode_pairs enc (kv :: d) =
    match enc (snd kv), encode_pairs enc d with
    | Some e, Some es =>
        Some ((encode_basestring_ascii (fst kv) ++ key_separator ++ e) :: es)
    | _, _ => None
    end.
Proof. reflexivity. Qed.

Lemma encode_items_ascii (l : list pyval) (es : list pystr) :
  Forall (fun v => forall js, enc v = Some js -> is_ascii js) l ->
  encode_items enc l = Some es -> Forall is_ascii es.
Proof.
  intros Hl. revert es. induction Hl as [|v l Hv Hl IH]; intros es E.
  - apply (inj Some) in E; subst. constructor.
  - rewrite encode_items_cons in E. destruct (enc v) as [e|] eqn:Ev; [|discriminate].
    destruct (encode_items enc l) as [es'|]; [|discriminate].
    apply (inj Some) in E; subst. constructor; auto.
Qed.

Lemma encode_pairs_ascii (d : list (pystr * pyval)) (es : list pystr) :
  Forall (fun kv => forall js, enc (snd kv) = Some js -> is_ascii js) d ->
  encode_pairs enc d = Some es -> Forall is_ascii es.
Proof.
  intros Hd. revert es. induction Hd as [|kv d Hv Hd IH]; intros es E.
  - apply (inj Some) in E; subst. constructor.
  - rewrite encode_pairs_cons in E. destruct (enc (snd kv)) as [e|] eqn:Ev; [|discriminate].
    destruct (encode_pairs enc d) as [es'|]; [|discriminate].
    apply (inj Some) in E; subst. constructor; [|auto].
    apply is_ascii_app; [apply encode_basestring_ascii_ascii|].
    apply is_ascii_app; [ascii_literal|auto].
Qed.

Lemma encode_items_total (l : list pyval) :
  Forall (fun v => is_Some (enc v)) l -> is_Some (encode_items enc l).
Proof.
  induction 1 as [|v l [e Hv] Hl [es IH]]; [now exists []|].
  rewrite encode_items_cons, Hv, IH. eauto.
Qed.

Lemma encode_pairs_total (d : list (pystr * pyval)) :
  Forall (fun kv => is_Some (enc (snd kv))) d -> is_Some (encode_pairs enc d).
Proof.
  induction 1 as [|kv d [e Hv] Hd [es IH]]; [now exists []|].
  rewrite encode_pairs_cons, Hv, IH. eauto.
Qed.
End Items.

Lemma int_repr_ascii (lim : Limits) (z : Z) (js : pystr) :
  int_repr lim z = Some js -> is_ascii js.
Proof.
  unfold int_repr. destruct (int_fits lim z); [|discriminate].
  intros E. apply (inj Some) in E; subst. apply str_of_Z_ascii.
Qed.

Lemma iterencode_ascii (lim : Limits) (v : pyval) :
  forall room level js, iterencode lim room level v = Some js -> is_ascii js.
Proof.
  induction v as [|b|z|s|l IH|d IH|t|r] using pyval_ind; intros room level js E;
    simpl in E; try discriminate.
  - apply (inj Some) in E; subst. ascii_literal.
  - apply (inj Some) in E; subst. destruct b; ascii_literal.
  - eapply int_repr_ascii. exact E.
  - apply (inj Some) in E; subst. apply encode_basestring_ascii_ascii.
  - destruct room as [|room']; [discriminate|].
    destruct l as [|x xs]; [apply (inj Some) in E; subst; ascii_literal|].
    destruct (encode_items (iterencode lim room' (S level)) (x :: xs)) as [es|] eqn:Ees;
      [|discriminate].
    apply (inj Some) in E; subst. apply bracketed_ascii; try ascii_literal.
    eapply encode_items_ascii; [|exact Ees].
    eapply Forall_impl; [exact IH|]. intros v Hv js. apply Hv.
  - destruct room as [|room']; [discriminate|].
    destruct d as [|x xs]; [apply (inj Some) in E; subst; ascii_literal|].
    destruct (encode_pairs (iterencode lim room' (S level)) (x :: xs)) as [es|] eqn:Ees;
      [|discriminate].
    apply (inj Some) in E; subst. apply bracketed_ascii; try ascii_literal.
    eapply encode_pairs_ascii; [|exact Ees].
    eapply Forall_impl; [exact IH|]. intros v Hv js. apply Hv.
Qed.

Lemma json_dumps_ascii (lim : Limits) (v : pyval) (js : pystr) :
  json_dumps lim v = Some js -> is_ascii js.
Proof. apply iterencode_ascii. Qed.

(** A structured value that stays within the limits is encoded, at any
    depth. *)
Lemma iterencode_structured (lim : Limits) (v : pyval) :
  structured v = true ->
  forall room level, within_limits lim room v = true ->
                     is_Some (iterencode lim room level v).
Proof.
  induction v as [|b|z|s|l IH|d IH|t|r] using pyval_ind; simpl;
    intros Hs room level Hw; try discriminate; eauto.
  - unfold int_repr. rewrite Hw. eauto.
  - destruct room as [|room']; [discriminate|].
    destruct l as [|x xs]; [eauto|].
    destruct (encode_items_total (iterencode lim room' (S level)) (x :: xs))
      as [es ->]; [|eauto].
    rewrite forallb_forall in Hs, Hw. rewrite List.Forall_forall in IH |- *.
    intros v Hv. apply IH; auto.
  - destruct room as [|room']; [discriminate|].
    destruct d as [|x xs]; [eauto|].
    destruct (encode_pairs_total (iterencode lim room' (S level)) (x :: xs))
      as [es ->]; [|eauto].
    rewrite forallb_forall in Hs, Hw. rewrite List.Forall_forall in IH |- *.
    intros v Hv. apply IH; auto.
Qed.

Lemma json_dumps_structured (lim : Limits) (v : pyval) :
  structured v = true -> fits lim v = true -> is_Some (json_dumps lim v).
Proof. intros Hs Hw. now apply iterencode_structured. Qed.

(** ASCII text is its own UTF-8 encoding: one byte for each character. *)
Lemma utf8_encode_ascii (s : pystr) : is_ascii s -> utf8_encode s = Some s.
Proof.
  induction 1 as [|c s Hc Hs IH]; simpl; [reflexivity|].
  unfold utf8_char. apply N.ltb_lt in Hc. rewrite Hc, IH. reflexivity.
Qed.

(** ** Routing *)

Lemma json_suffix_no_slash : ~ In SLASH (py ".json").
Proof. vm_compute. intuition discriminate. Qed.

Lemma route_form (p n : pystr) :
  ~ In SLASH n -> endswith n (py ".json") = false ->
  route (p ++ SLASH :: n) = (n, Form).
Proof.
  intros Hn He. unfold route. rewrite last_piece_split by exact Hn.
  now rewrite He.
Qed.

Lemma route_json (p n : pystr) :
  ~ In SLASH n -> route (p ++ SLASH :: n ++ py ".json") = (n, Json).
Proof.
  intros Hn. unfold route. rewrite last_piece_split.
  - rewrite endswith_app. f_equal. apply (drop_last_app n (py ".json")).
  - intros [H|H]%in_app_or; [exact (Hn H)|exact (json_suffix_no_slash H)].
Qed.

Lemma api_prefix (n : pystr) : py "/api/" ++ n = py "/api" ++ SLASH :: n.
Proof. reflexivity. Qed.

(** The first lines of [handle_request], once the path is routed. *)
Lemma handle_request_routed (srv : Server) (env : Env) (req : Request) :
  handle_request srv env req =
    let hdrs := base_headers in
    let handler := fst (route (path req)) in
    match parse_formdata env (snd (route (path req))) req with
    | ParseValueError e =>
        Responded {| response := mkResponse hdrs status_bad_request e;
                     session_after := None; stderr := []; invoked := [] |}
    | ParseOtherError => Uncaught
    | Parsed indata =>
        match handlers srv !! handler with
        | Some ep =>
            match exec ep (config srv) (get_session env req) indata with
            | (Return output, session) =>
                let hdrs := <[py "content-type" := py "application/json"]> hdrs in
                if truthy output && negb (is_response output) then
                  match json_dumps (limits env) output with
                  | Some jsout =>
                      Responded
                        {| response :=
                             mkResponse
                               (<[py "Content-Length" := str_of_nat (length jsout)]> hdrs)
                               status_ok jsout;
                           session_after := Some (release session);
                           stderr := []; invoked := [handler] |}
                  | None =>
                      Responded (contain srv env req hdrs (release session)
                                   (dumps_traceback env output) [handler])
                  end
                else
                  match output with
                  | PyResp r =>
                      Responded {| response := r;
                                   session_after := Some (release session);
                                   stderr := []; invoked := [handler] |}
                  | _ =>
                      Responded {| response := mkResponse hdrs status_not_found
                                                 (py "Content not found");
                                   session_after := Some (release session);
                                   stderr := []; invoked := [handler] |}
                  end
            | (Raise tb, session) =>
                Responded (contain srv env req hdrs session tb [handler])
            end
        | None =>
            Responded {| response := mkResponse hdrs status_not_found
                                       (py "API Endpoint not found!");
                         session_after := None; stderr := []; invoked := [] |}
        end
    end.
Proof. unfold handle_request. destruct (route (path req)). reflexivity. Qed.

(** ** The claims about routing and the two refusals *)

(** The names the start-up loop registers are file names, less their
    [".py"]. *)
Lemma load_endpoint_keys (import_module : pystr -> option PyModule) (cfg : Config)
    (hs0 hs : gmap pystr Endpoint) (f n : pystr) :
  load_endpoint import_module cfg hs0 f = Some hs ->
  is_Some (hs !! n) -> is_Some (hs0 !! n) \/ n = drop_last 3 f.
Proof.
  unfold load_endpoint. intros E Hn.
  destruct (endswith f (py ".py")); [|left; congruence].
  destruct (import_module (py "endpoints." ++ drop_last 3 f)) as [m|]; [|discriminate].
  destruct (register_attr m) as [r|]; [|left; congruence].
  destruct (r (mkServer cfg hs0)) as [ep|]; [|discriminate].
  apply (inj Some) in E. subst hs.
  destruct (decide (drop_last 3 f = n)) as [->|Hne]; [now right|].
  left. now rewrite lookup_insert_ne in Hn.
Qed.

Lemma load_endpoints_keys (import_module : pystr -> option PyModule) (cfg : Config)
    (listing : list pystr) :
  forall (hs0 hs : gmap pystr Endpoint) (n : pystr),
    load_endpoints import_module cfg hs0 listing = Some hs ->
    is_Some (hs !! n) ->
    is_Some (hs0 !! n) \/ exists f, In f listing /\ n = drop_last 3 f.
Proof.
  induction listing as [|f fs IH]; intros hs0 hs n E Hn; simpl in E.
  - left. congruence.
  - destruct (load_endpoint import_module cfg hs0 f) as [hs1|] eqn:E1; [|discriminate].
    destruct (IH hs1 hs n E Hn) as [H1|(g & Hg & ->)].
    + destruct (load_endpoint_keys _ _ _ _ _ _ E1 H1) as [H0| ->]; [now left|].
      right. exists f. split; [now left|reflexivity].
    + right. exists g. split; [now right|reflexivity].
Qed.

Lemma drop_last_In (c : N) (k : nat) (f : pystr) : In c (drop_last k f) -> In c f.
Proof.
  unfold drop_last. intros H.
  rewrite <- (take_drop (length f - k) f). apply in_or_app. now left.
Qed.

(** Routing a registered name that holds no slash and is free of the
    suffix. *)
Lemma route_lookup (hs : gmap pystr Endpoint) (n : pystr) (ep : Endpoint) :
  hs !! n = Some ep ->
  ~ In SLASH n ->
  endswith n (py ".json") = false ->
  route (py "/api/" ++ n) = (n, Form)
  /\ route (py "/api/" ++ n ++ py ".json") = (n, Json)
  /\ hs !! fst (route (py "/api/" ++ n)) = Some ep
  /\ hs !! fst (route (py "/api/" ++ n ++ py ".json")) = Some ep.
Proof.
  intros Hreg Hslash Hjson.
  assert (E1 : route (py "/api/" ++ n) = (n, Form))
    by (rewrite api_prefix; now apply route_form).
  assert (E2 : route (py "/api/" ++ n ++ py ".json") = (n, Json))
    by (rewrite api_prefix; now apply route_json).
  rewrite E1, E2. auto.
Qed.

(** C4, as the code has it: for every endpoint name [n] that the start-up
    loop has registered from the files of the [endpoints] directory (file
    names hold no slash) and that does not itself end in [".json"], the
    paths ["/api/n"] and ["/api/n.json"] are routed to the name [n], the
    first with body type form and the second with body type json, and the
    lookup of the routed name in the registry, which is by equality of
    strings, finds the entry registered under [n] both times. *)
Theorem route_registered (import_module : pystr -> option PyModule) (cfg : Config)
    (listing : list pystr) (hs : gmap pystr Endpoint) (n : pystr) (ep : Endpoint) :
  Forall (fun f => ~ In SLASH f) listing ->
  load_endpoints import_module cfg ∅ listing = Some hs ->
  hs !! n = Some ep ->
  endswith n (py ".json") = false ->
  route (py "/api/" ++ n) = (n, Form)
  /\ route (py "/api/" ++ n ++ py ".json") = (n, Json)
  /\ hs !! fst (route (py "/api/" ++ n)) = Some ep
  /\ hs !! fst (route (py "/api/" ++ n ++ py ".json")) = Some ep.
Proof.
  intros Hfiles Hload Hreg Hjson.
  apply route_lookup; [exact Hreg| |exact Hjson].
  destruct (load_endpoints_keys _ _ _ _ _ n Hload) as [[e He]|(f & Hf & ->)].
  - rewrite Hreg. eauto.
  - rewrite lookup_empty in He. discriminate.
  - intros Hin%drop_last_In. rewrite List.Forall_forall in Hfiles.
    exact (Hfiles f Hf Hin).
Qed.

Lemma route_registered_witness :
  load_endpoints sample_import (sample_config true) ∅ sample_listing
    = Some {[ py "repository" := register create_fails (sample_config true) ]}
  /\ route (py "/api/" ++ py "repository") = (py "repository", Form)
  /\ route (py "/api/" ++ py "repository" ++ py ".json") = (py "repository", Json).
Proof.
  split; [vm_compute; reflexivity|].
  destruct (route_registered sample_import (sample_config true) sample_listing
              {[ py "repository" := register create_fails (sample_config true) ]}
              (py "repository") (register create_fails (sample_config true)))
    as (E1 & E2 & _).
  - apply List.Forall_forall. intros f Hf. vm_compute in Hf.
    destruct Hf as [<-|[<-|[]]]; vm_compute; intuition discriminate.
  - vm_compute. reflexivity.
  - vm_compute. reflexivity.
  - vm_compute. reflexivity.
  - split; [exact E1|exact E2].
Defined.

(** C4 as it is stated fails for a registered name that ends in [".json"]:
    the start-up loop registers the file [x.json.py] under [x.json], and the
    path ["/api/x.json"] is routed to the name [x], which is not
    registered. *)
Lemma route_registered_counterexample :
  exists hs ep,
    dotted_registry = Some hs
    /\ hs !! py "x.json" = Some ep
    /\ route (py "/api/" ++ py "x.json") = (py "x", Json)
    /\ hs !! fst (route (py "/api/" ++ py "x.json")) = None.
Proof.
  exists {[ py "x.json" := returning (PyInt 1) ]}, (returning (PyInt 1)).
  repeat split; vm_compute; reflexivity.
Qed.

(** C9: a body that does not parse is answered with status 400 and the
    message of the [ValueError], whatever the registry holds, the routed
    name included: the parser runs before the lookup.  No handler is
    awaited and no session is made. *)
Theorem parse_error_before_lookup (srv : Server) (env : Env) (req : Request)
    (msg : pystr) :
  parse_formdata env (snd (route (path req))) req = ParseValueError msg ->
  handle_request srv env req =
    Responded {| response := mkResponse base_headers status_bad_request msg;
                 session_after := None; stderr := []; invoked := [] |}.
Proof. intros Hp. rewrite handle_request_routed. simpl. now rewrite Hp. Qed.

Lemma parse_error_before_lookup_witness :
  handlers (sample_server true) !! fst (route (py "/api/doesnotexist.json")) = None
  /\ handle_request (sample_server true)
       (sample_env (ParseValueError (py "Erroneous payload received")) anonymous)
       (mkRequest (py "/api/doesnotexist.json") (py "{"))
     = Responded {| response := mkResponse base_headers status_bad_request
                                  (py "Erroneous payload received");
                    session_after := None; stderr := []; invoked := [] |}.
Proof.
  split; [vm_compute; reflexivity|].
  apply parse_error_before_lookup. reflexivity.
Defined.

(** C5, as the code has it: for every request whose body parses and whose
    routed name is not in the registry, the answer has status 404 and the
    body ["API Endpoint not found!"]; no handler is awaited, no session is
    made and nothing is written to the error stream. *)
Theorem unregistered_not_found (srv : Server) (env : Env) (req : Request)
    (indata : pydict) :
  parse_formdata env (snd (route (path req))) req = Parsed indata ->
  handlers srv !! fst (route (path req)) = None ->
  handle_request srv env req =
    Responded {| response := mkResponse base_headers status_not_found
                               (py "API Endpoint not found!");
                 session_after := None; stderr := []; invoked := [] |}.
Proof.
  intros Hp Hl. rewrite handle_request_routed. simpl. now rewrite Hp, Hl.
Qed.

Lemma unregistered_not_found_witness :
  handle_request (sample_server true) (sample_env (Parsed []) anonymous)
    (mkRequest (py "/api/doesnotexist") [])
  = Responded {| response := mkResponse base_headers status_not_found
                               (py "API Endpoint not found!");
                 session_after := None; stderr := []; invoked := [] |}.
Proof.
  apply (unregistered_not_found _ _ _ []); vm_compute; reflexivity.
Defined.

(** C5 as it is stated fails for a request whose body does not parse: the
    routed name [doesnotexist] is not registered, and the answer is the 400
    of the parser, not the 404. *)
Lemma unregistered_not_found_counterexample :
  exists o,
    handlers (sample_server true) !! fst (route (py "/api/doesnotexist.json")) = None
    /\ handle_request (sample_server true)
         (sample_env (ParseValueError (py "Erroneous payload received")) anonymous)
         (mkRequest (py "/api/doesnotexist.json") (py "{"))
       = Responded o
    /\ status (response o) = 400%Z
    /\ text (response o) = py "Erroneous payload received"
    /\ text (response o) <> py "API Endpoint not found!".
Proof.
  eexists. split; [vm_compute; reflexivity|].
  split; [reflexivity|]. simpl. repeat split. vm_compute. discriminate.
Qed.

(** ** The claims about what a handler returns *)

Lemma structured_not_response (v : pyval) : structured v = true -> is_response v = false.
Proof. destruct v; simpl; congruence. Qed.

Lemma release_database (s : Session) : database (release s) = None.
Proof. unfold release. destruct (database s) eqn:E; [reflexivity|exact E]. Qed.

Lemma release_credentials (s : Session) : credentials (release s) = credentials s.
Proof. unfold release. destruct (database s); reflexivity. Qed.

Lemma contain_database (srv : Server) (env : Env) (req : Request)
    (hdrs : gmap pystr pystr) (s : Session) (tb : list pystr) (called : list pystr) :
  exists s', session_after (contain srv env req hdrs s tb called) = Some s'
             /\ database s' = None.
Proof.
  exists (release s). unfold contain.
  destruct (traceback (config srv)); simpl; auto using release_database.
Qed.

(** C7: when the handler returns a value that is false in a condition
    ([None], an empty mapping, list or string, [0], [False]) and is not a
    [Response], the answer has status 404 and the body
    ["Content not found"], which is not the body sent for a name that is
    not registered. *)
Theorem empty_result_not_found (srv : Server) (env : Env) (req : Request)
    (indata : pydict) (ep : Endpoint) (v : pyval) (s : Session) :
  parse_formdata env (snd (route (path req))) req = Parsed indata ->
  handlers srv !! fst (route (path req)) = Some ep ->
  exec ep (config srv) (get_session env req) indata = (Return v, s) ->
  truthy v = false ->
  is_response v = false ->
  handle_request srv env req =
    Responded {| response :=
                   mkResponse
                     (<[py "content-type" := py "application/json"]> base_headers)
                     status_not_found (py "Content not found");
                 session_after := Some (release s);
                 stderr := [];
                 invoked := [fst (route (path req))] |}
  /\ py "Content not found" <> py "API Endpoint not found!".
Proof.
  intros Hp Hl He Ht Hr. split; [|vm_compute; discriminate].
  rewrite handle_request_routed. simpl. rewrite Hp, Hl, He, Ht. simpl.
  destruct v; try reflexivity. discriminate Hr.
Qed.

Lemma empty_result_not_found_witness :
  exists o,
    handle_request (sample_server true) (sample_env (Parsed []) anonymous)
      (mkRequest (py "/api/empty") []) = Responded o
    /\ status (response o) = 404%Z
    /\ text (response o) = py "Content not found"
    /\ invoked o = [py "empty"].
Proof.
  eexists. split.
  - refine (proj1 (empty_result_not_found (sample_server true)
                     (sample_env (Parsed []) anonymous)
                     (mkRequest (py "/api/empty") []) [] (returning (PyDict []))
                     (PyDict []) anonymous _ _ _ _ _)); vm_compute; reflexivity.
  - repeat split.
Defined.

(** C6, as the code has it: when the handler returns a structured value
    that is true in a condition and that [json.dumps] can write within the
    limits of the interpreter (no integer of more digits than the limit of
    the conversion, no nesting deeper than the stack has room for), the
    answer has status 200, its body is the JSON text of the value, and its
    [Content-Length] header is the decimal number of bytes of that text in
    UTF-8. *)
Theorem serialized_result (srv : Server) (env : Env) (req : Request)
    (indata : pydict) (ep : Endpoint) (v : pyval) (s : Session) :
  parse_formdata env (snd (route (path req))) req = Parsed indata ->
  handlers srv !! fst (route (path req)) = Some ep ->
  exec ep (config srv) (get_session env req) indata = (Return v, s) ->
  truthy v = true ->
  structured v = true ->
  fits (limits env) v = true ->
  exists o jsout bytes,
    handle_request srv env req = Responded o
    /\ json_dumps (limits env) v = Some jsout
    /\ utf8_encode jsout = Some bytes
    /\ status (response o) = 200%Z
    /\ text (response o) = jsout
    /\ headers (response o) !! py "Content-Length" = Some (str_of_nat (length bytes))
    /\ stderr o = [].
Proof.
  intros Hp Hl He Ht Hs Hw.
  destruct (json_dumps_structured (limits env) v Hs Hw) as [jsout Hj].
  pose proof (utf8_encode_ascii jsout (json_dumps_ascii _ v jsout Hj)) as Hu.
  eexists _, jsout, jsout. split.
  - rewrite handle_request_routed. simpl.
    rewrite Hp, Hl, He, Ht, (structured_not_response v Hs). simpl.
    rewrite Hj. reflexivity.
  - simpl. split; [exact Hj|]. split; [exact Hu|].
    split; [reflexivity|]. split; [reflexivity|].
    split; [apply lookup_insert_eq|reflexivity].
Qed.

Lemma serialized_result_witness :
  exists o,
    handle_request (sample_server true) (sample_env (Parsed []) anonymous)
      (mkRequest (py "/api/version") []) = Responded o
    /\ json_dumps sample_limits (PyDict [(py "version", PyStr BOXER_VERSION)])
       = Some version_json
    /\ utf8_encode version_json = Some version_json
    /\ length version_json = 24%nat
    /\ status (response o) = 200%Z
    /\ text (response o) = version_json
    /\ headers (response o) !! py "Content-Length" = Some (py "24")
    /\ stderr o = [].
Proof.
  destruct (serialized_result (sample_server true) (sample_env (Parsed []) anonymous)
              (mkRequest (py "/api/version") []) []
              (returning (PyDict [(py "version", PyStr BOXER_VERSION)]))
              (PyDict [(py "version", PyStr BOXER_VERSION)]) anonymous)
    as (o & jsout & bytes & Eo & Ej & Eu & Es & Et & Eh & Ee);
    try (vm_compute; reflexivity).
  assert (Hj : jsout = version_json).
  { apply (inj Some). rewrite <- Ej. vm_compute. reflexivity. }
  rewrite Hj in Ej, Eu, Et.
  assert (Hb : bytes = version_json).
  { apply (inj Some). rewrite <- Eu. vm_compute. reflexivity. }
  rewrite Hb in Eu, Eh.
  exists o. split; [exact Eo|]. split; [exact Ej|]. split; [exact Eu|].
  split; [vm_compute; reflexivity|]. split; [exact Es|]. split; [exact Et|].
  split; [rewrite Eh; vm_compute; reflexivity|exact Ee].
Defined.

(** An integer beyond the limit of the conversion makes [json.dumps] raise,
    and the [except] clause answers. *)
Lemma oversized_integer_contained (srv : Server) (env : Env) (req : Request)
    (indata : pydict) (ep : Endpoint) (k : pystr) (z : Z) (s : Session) :
  parse_formdata env (snd (route (path req))) req = Parsed indata ->
  handlers srv !! fst (route (path req)) = Some ep ->
  exec ep (config srv) (get_session env req) indata
    = (Return (PyDict [(k, PyInt z)]), s) ->
  int_fits (limits env) z = false ->
  exists o, handle_request srv env req = Responded o
            /\ status (response o) = 500%Z.
Proof.
  intros Hp Hl He Hz. rewrite handle_request_routed. cbv zeta.
  rewrite Hp, Hl, He.
  change (truthy (PyDict [(k, PyInt z)]) && negb (is_response (PyDict [(k, PyInt z)])))
    with true. cbv iota.
  assert (Hj : json_dumps (limits env) (PyDict [(k, PyInt z)]) = None).
  { unfold json_dumps. cbn [iterencode]. rewrite encode_pairs_cons.
    cbn [snd iterencode]. unfold int_repr. now rewrite Hz. }
  rewrite Hj. eexists. split; [reflexivity|].
  unfold contain. destruct (traceback (config srv)); reflexivity.
Qed.

Lemma big_integer_digits : int_digits big_integer = 4301%nat.
Proof.
  unfold int_digits, big_integer.
  change (Z.of_uint ?u) with (Z.of_int (Decimal.Pos u)).
  rewrite DecimalZ.to_of. vm_compute. reflexivity.
Qed.

(** C6 as it is stated fails for a structured value that [json.dumps]
    cannot write: a mapping that holds the integer [10 ** 4300], of 4301
    digits, in an interpreter that converts 4300 digits at most, and 2000
    lists one inside the other, for which the stack has no room.  Both are
    true in a condition, both are structured, and both are answered with
    status 500. *)
Lemma serialized_result_counterexample :
  exists o o',
    truthy (PyDict [(py "count", PyInt big_integer)]) = true
    /\ structured (PyDict [(py "count", PyInt big_integer)]) = true
    /\ handle_request (returning_server (PyDict [(py "count", PyInt big_integer)]))
         (sample_env (Parsed []) anonymous) (mkRequest (py "/api/value") [])
       = Responded o
    /\ status (response o) = 500%Z
    /\ truthy deep_list = true
    /\ structured deep_list = true
    /\ handle_request (returning_server deep_list)
         (sample_env (Parsed []) anonymous) (mkRequest (py "/api/value") [])
       = Responded o'
    /\ status (response o') = 500%Z.
Proof.
  destruct (oversized_integer_contained
              (returning_server (PyDict [(py "count", PyInt big_integer)]))
              (sample_env (Parsed []) anonymous) (mkRequest (py "/api/value") []) []
              (returning (PyDict [(py "count", PyInt big_integer)]))
              (py "count") big_integer anonymous) as (o & Eo & Es).
  - reflexivity.
  - generalize big_integer. intros z. vm_compute. reflexivity.
  - reflexivity.
  - unfold int_fits. rewrite big_integer_digits. vm_compute. reflexivity.
  - exists o. eexists.
    split; [reflexivity|]. split; [reflexivity|]. split; [exact Eo|].
    split; [exact Es|]. split; [vm_compute; reflexivity|].
    split; [vm_compute; reflexivity|]. split; [vm_compute; reflexivity|].
    vm_compute. reflexivity.
Qed.

(** C2: whenever a handler is dispatched, the call ends with the session's
    database field absent: when the handler returns, whatever it returns,
    when [json.dumps] fails on what it returned, and when the handler
    raises, with the traceback shown or logged. *)
Theorem database_released (srv : Server) (env : Env) (req : Request)
    (indata : pydict) (ep : Endpoint) :
  parse_formdata env (snd (route (path req))) req = Parsed indata ->
  handlers srv !! fst (route (path req)) = Some ep ->
  exists o s,
    handle_request srv env req = Responded o
    /\ session_after o = Some s
    /\ database s = None
    /\ invoked o = [fst (route (path req))].
Proof.
  intros Hp Hl. rewrite handle_request_routed. simpl. rewrite Hp, Hl.
  destruct (exec ep (config srv) (get_session env req) indata) as [[v|tb] s].
  - destruct (truthy v && negb (is_response v)).
    + destruct (json_dumps (limits env) v) as [jsout|].
      * eexists _, _. repeat split. apply release_database.
      * destruct (contain_database srv env req
                    (<[py "content-type" := py "application/json"]> base_headers)
                    (release s) (dumps_traceback env v)
                    [fst (route (path req))]) as (s' & E & D).
        eexists _, s'. repeat split; auto.
        unfold contain. destruct (traceback (config srv)); reflexivity.
    + destruct v; eexists _, _; repeat split; apply release_database.
  - destruct (contain_database srv env req base_headers s tb
                [fst (route (path req))]) as (s' & E & D).
    eexists _, s'. repeat split; auto.
    unfold contain. destruct (traceback (config srv)); reflexivity.
Qed.

Lemma database_released_witness :
  database (get_session (sample_env (Parsed []) anonymous)
              (mkRequest (py "/api/boom") [])) = Some (DB 1)
  /\ exists o s,
       handle_request (sample_server false) (sample_env (Parsed []) anonymous)
         (mkRequest (py "/api/boom") []) = Responded o
       /\ session_after o = Some s
       /\ database s = None
       /\ invoked o = [py "boom"].
Proof.
  split; [reflexivity|].
  refine (database_released (sample_server false) (sample_env (Parsed []) anonymous)
            (mkRequest (py "/api/boom") []) [] failing _ _); vm_compute; reflexivity.
Defined.

(** ** The claims about a handler that raises *)

Lemma stderr_line_prefix (eid line : pystr) : eid `prefix_of` stderr_line eid line.
Proof. unfold stderr_line. now exists (py ": " ++ line ++ [NL]). Qed.

(** C1, as the code has it: when the handler raises and tracebacks are not
    disclosed, the answer has status 500 and its body is the generic
    message followed by the error id, the first 18 characters of a fresh
    UUID, whatever the traceback says.  The error stream gets one header
    line, which names the path and the id, and then the lines of the
    traceback, each of them one line that begins with the id. *)
Theorem opaque_failure (srv : Server) (env : Env) (req : Request)
    (indata : pydict) (ep : Endpoint) (tb : list pystr) (s : Session) :
  parse_formdata env (snd (route (path req))) req = Parsed indata ->
  handlers srv !! fst (route (path req)) = Some ep ->
  exec ep (config srv) (get_session env req) indata = (Raise tb, s) ->
  traceback (config srv) = false ->
  exists o lines,
    handle_request srv env req = Responded o
    /\ status (response o) = 500%Z
    /\ text (response o) = generic_error ++ take 18 (uuid4 env)
    /\ stderr o = stderr_header (path req) (take 18 (uuid4 env))
                    :: map (stderr_line (take 18 (uuid4 env))) lines
    /\ join [NL] lines = join [NL] tb
    /\ Forall (fun line => ~ In NL line) lines
    /\ Forall (fun w => take 18 (uuid4 env) `prefix_of` w)
         (map (stderr_line (take 18 (uuid4 env))) lines).
Proof.
  intros Hp Hl He Hf.
  exists (contain srv env req base_headers s tb [fst (route (path req))]),
         (split_on NL (join [NL] tb)).
  split.
  - rewrite handle_request_routed. simpl. now rewrite Hp, Hl, He.
  - unfold contain. rewrite Hf. simpl.
    split; [reflexivity|]. split; [reflexivity|]. split; [reflexivity|].
    split; [apply join_split_on|]. split; [apply split_on_pieces|].
    apply Forall_forall. intros w (line & -> & _)%list_elem_of_fmap.
    apply stderr_line_prefix.
Qed.

Lemma opaque_failure_witness :
  exists o lines,
    handle_request (sample_server false) (sample_env (Parsed []) anonymous)
      (mkRequest (py "/api/boom") []) = Responded o
    /\ status (response o) = 500%Z
    /\ text (response o) = generic_error ++ take 18 sample_uuid
    /\ stderr o = stderr_header (py "/api/boom") (take 18 sample_uuid)
                    :: map (stderr_line (take 18 sample_uuid)) lines
    /\ join [NL] lines = join [NL] sample_traceback
    /\ Forall (fun line => ~ In NL line) lines
    /\ Forall (fun w => take 18 sample_uuid `prefix_of` w)
         (map (stderr_line (take 18 sample_uuid)) lines).
Proof.
  refine (opaque_failure (sample_server false) (sample_env (Parsed []) anonymous)
            (mkRequest (py "/api/boom") []) [] failing sample_traceback anonymous
            _ _ _ _); vm_compute; reflexivity.
Defined.

(** C1 as it is stated fails on the first line written to the error
    stream: it begins with ["API Endpoint"], and holds the id only between
    its brackets. *)
Lemma opaque_failure_counterexample :
  exists o w,
    handle_request (sample_server false) (sample_env (Parsed []) anonymous)
      (mkRequest (py "/api/boom") []) = Responded o
    /\ text (response o) = generic_error ++ py "123e4567-e89b-42d3"
    /\ In w (stderr o)
    /\ w = py "API Endpoint /api/boom got into trouble (123e4567-e89b-42d3): " ++ [NL]
    /\ ~ (py "123e4567-e89b-42d3" `prefix_of` w).
Proof.
  eexists _, (py "API Endpoint /api/boom got into trouble (123e4567-e89b-42d3): " ++ [NL]).
  split; [vm_compute; reflexivity|].
  split; [vm_compute; reflexivity|].
  split; [left; vm_compute; reflexivity|].
  split; [reflexivity|].
  intros [k Hk]. vm_compute in Hk. discriminate Hk.
Qed.


Lemma stderr_line_inj (eid : pystr) (l l' : list pystr) :
  map (stderr_line eid) l = map (stderr_line eid) l' -> l = l'.
Proof.
  revert l'. induction l as [|x l IH]; intros [|y l'] E; try discriminate;
    [reflexivity|].
  apply (inj2 cons) in E as [Ex El]. f_equal; [|now apply IH].
  unfold stderr_line in Ex.
  apply app_inv_head, app_inv_head, app_inv_tail in Ex. exact Ex.
Qed.


(** ** The claims about the repository endpoint *)

Lemma eq_str_false (v : pyval) (s : pystr) : v <> PyStr s -> eq_str v s = false.
Proof.
  intros Hne. destruct v; try reflexivity. simpl.
  destruct (pystr_eqb s0 s) eqn:E; [|reflexivity].
  apply pystr_eqb_eq in E. congruence.
Qed.

Lemma not_logged_in_dumps (lim : Limits) :
  json_dumps lim (PyDict not_logged_in) = Some not_logged_in_json.
Proof. vm_compute. reflexivity. Qed.

(** C8, as the code has it: for a session without credentials, [process]
    returns the mapping that says so, and a request routed to the
    repository endpoint whose body parses is answered with status 200 and
    that mapping as JSON text. *)
Theorem repository_requires_login
    (create : Config -> Session -> pydict -> Completion * Session)
    (srv : Server) (env : Env) (req : Request) (indata : pydict) :
  fst (route (path req)) = py "repository" ->
  handlers srv !! py "repository" = Some (register create (config srv)) ->
  parse_formdata env (snd (route (path req))) req = Parsed indata ->
  credentials (get_session env req) = None ->
  process create (config srv) (get_session env req) indata
    = (Return (PyDict [(py "okay", PyBool false);
                       (py "message",
                        PyStr (py "You need to be logged in to access this end point"))]),
       get_session env req)
  /\ exists o,
       handle_request srv env req = Responded o
       /\ status (response o) = 200%Z
       /\ text (response o) = not_logged_in_json
       /\ json_dumps (limits env) (PyDict not_logged_in) = Some (text (response o))
       /\ headers (response o) !! py "content-type" = Some (py "application/json").
Proof.
  intros Hr Hl Hp Hc.
  assert (Hproc : process create (config srv) (get_session env req) indata
                  = (Return (PyDict not_logged_in), get_session env req))
    by (unfold process; now rewrite Hc).
  split; [exact Hproc|].
  eexists. split.
  - rewrite handle_request_routed. simpl. rewrite Hp, Hr, Hl.
    unfold register. cbn [exec]. rewrite Hproc.
    change (truthy (PyDict not_logged_in) && negb (is_response (PyDict not_logged_in)))
      with true.
    cbv iota. rewrite not_logged_in_dumps. reflexivity.
  - cbn [response status text headers].
    split; [reflexivity|]. split; [reflexivity|].
    split; [apply not_logged_in_dumps|].
    rewrite lookup_insert_ne by (vm_compute; discriminate).
    apply lookup_insert_eq.
Qed.

Lemma repository_requires_login_witness :
  exists o,
    handle_request (sample_server true) (sample_env (Parsed []) anonymous)
      (mkRequest (py "/api/repository") []) = Responded o
    /\ status (response o) = 200%Z
    /\ text (response o) = not_logged_in_json
    /\ json_dumps sample_limits (PyDict not_logged_in) = Some (text (response o))
    /\ headers (response o) !! py "content-type" = Some (py "application/json").
Proof.
  refine (proj2 (repository_requires_login create_fails (sample_server true)
                   (sample_env (Parsed []) anonymous)
                   (mkRequest (py "/api/repository") []) [] _ _ _ _));
    vm_compute; reflexivity.
Defined.

(** C8 as it is stated fails for a request whose body does not parse: the
    path is the one of the repository endpoint and the session carries no
    credentials, but the answer is the 400 of the parser, and [process] is
    not awaited. *)
Lemma repository_requires_login_counterexample :
  exists o,
    fst (route (py "/api/repository.json")) = py "repository"
    /\ is_Some (handlers (sample_server true) !! py "repository")
    /\ credentials
         (get_session
            (sample_env (ParseValueError (py "Erroneous payload received")) anonymous)
            (mkRequest (py "/api/repository.json") (py "{"))) = None
    /\ handle_request (sample_server true)
         (sample_env (ParseValueError (py "Erroneous payload received")) anonymous)
         (mkRequest (py "/api/repository.json") (py "{"))
       = Responded o
    /\ status (response o) = 400%Z
    /\ text (response o) = py "Erroneous payload received"
    /\ text (response o) <> not_logged_in_json
    /\ invoked o = [].
Proof.
  eexists. split; [vm_compute; reflexivity|].
  split; [vm_compute; eauto|]. split; [reflexivity|].
  split; [vm_compute; reflexivity|]. cbn [response status text invoked].
  split; [reflexivity|]. split; [reflexivity|].
  split; [vm_compute; discriminate|reflexivity].
Qed.

(** C10: for a session with credentials and an input mapping whose
    ["action"] is absent, or is anything but the string ["create"],
    [process] ends without a [return], which gives [None], and a request
    routed to the repository endpoint is answered with status 404 and the
    body ["Content not found"]. *)
Theorem repository_falls_through
    (create : Config -> Session -> pydict -> Completion * Session)
    (srv : Server) (env : Env) (req : Request) (indata : pydict)
    (c : Credentials) :
  fst (route (path req)) = py "repository" ->
  handlers srv !! py "repository" = Some (register create (config srv)) ->
  parse_formdata env (snd (route (path req))) req = Parsed indata ->
  credentials (get_session env req) = Some c ->
  dict_get indata (py "action") <> PyStr (py "create") ->
  process create (config srv) (get_session env req) indata
    = (Return PyNone, get_session env req)
  /\ handle_request srv env req =
       Responded {| response :=
                      mkResponse
                        (<[py "content-type" := py "application/json"]> base_headers)
                        status_not_found (py "Content not found");
                    session_after := Some (release (get_session env req));
                    stderr := [];
                    invoked := [py "repository"] |}.
Proof.
  intros Hr Hl Hp Hc Ha.
  assert (Hproc : process create (config srv) (get_session env req) indata
                  = (Return PyNone, get_session env req))
    by (unfold process; now rewrite Hc, (eq_str_false _ _ Ha)).
  split; [exact Hproc|].
  rewrite handle_request_routed. simpl. rewrite Hp, Hr, Hl.
  unfold register. cbn [exec]. now rewrite Hproc.
Qed.

Lemma repository_falls_through_witness :
  dict_get [(py "action", PyStr (py "delete"))] (py "action") = PyStr (py "delete")
  /\ handle_request (sample_server true)
       (sample_env (Parsed [(py "action", PyStr (py "delete"))]) committer)
       (mkRequest (py "/api/repository.json") [])
     = Responded {| response :=
                      mkResponse
                        (<[py "content-type" := py "application/json"]> base_headers)
                        status_not_found (py "Content not found");
                    session_after := Some (release committer);
                    stderr := [];
                    invoked := [py "repository"] |}.
Proof.
  split; [vm_compute; reflexivity|].
  refine (proj2 (repository_falls_through create_fails (sample_server true)
                   (sample_env (Parsed [(py "action", PyStr (py "delete"))]) committer)
                   (mkRequest (py "/api/repository.json") [])
                   [(py "action", PyStr (py "delete"))]
                   (mkCredentials (py "janedoe") false false) _ _ _ _ _));
    try (vm_compute; reflexivity).
  vm_compute. discriminate.
Defined.

(** * More of [handle_request] *)

Lemma release_idempotent (s : Session) : release (release s) = release s.
Proof. unfold release. destruct (database s) eqn:E; [reflexivity|now rewrite E]. Qed.

Lemma encode_items_fails (ok : pyval -> bool) (enc : pyval -> option pystr)
    (l : list pyval) :
  Forall (fun v => ok v = false -> enc v = None) l ->
  forallb ok l = false -> encode_items enc l = None.
Proof.
  induction 1 as [|y ys Hy Hys IH]; intros Hs; [discriminate|].
  rewrite encode_items_cons. simpl in Hs.
  destruct (ok y).
  - rewrite (IH Hs). now destruct (enc y).
  - now rewrite (Hy eq_refl).
Qed.

Lemma encode_pairs_fails (ok : pyval -> bool) (enc : pyval -> option pystr)
    (d : list (pystr * pyval)) :
  Forall (fun kv => ok (snd kv) = false -> enc (snd kv) = None) d ->
  forallb (fun kv => ok (snd kv)) d = false -> encode_pairs enc d = None.
Proof.
  induction 1 as [|y ys Hy Hys IH]; intros Hs; [discriminate|].
  rewrite encode_pairs_cons. simpl in Hs.
  destruct (ok (snd y)).
  - rewrite (IH Hs). now destruct (enc (snd y)).
  - now rewrite (Hy eq_refl).
Qed.

(** What [structured] refuses, [json.dumps] refuses. *)
Lemma iterencode_unstructured (lim : Limits) (v : pyval) :
  structured v = false -> forall room level, iterencode lim room level v = None.
Proof.
  induction v as [|b|z|s|l IH|d IH|t|r] using pyval_ind; simpl; intros Hs room level;
    try discriminate; try reflexivity.
  - destruct room as [|room']; [reflexivity|].
    destruct l as [|x xs]; [discriminate|].
    rewrite (encode_items_fails structured (iterencode lim room' (S level)) (x :: xs));
      [reflexivity| |exact Hs].
    eapply Forall_impl; [exact IH|]. intros v Hv E. now apply Hv.
  - destruct room as [|room']; [reflexivity|].
    destruct d as [|x xs]; [discriminate|].
    rewrite (encode_pairs_fails structured (iterencode lim room' (S level)) (x :: xs));
      [reflexivity| |exact Hs].
    eapply Forall_impl; [exact IH|]. intros v Hv E. now apply Hv.
Qed.

(** What is beyond the limits, [json.dumps] refuses as well. *)
Lemma iterencode_beyond_limits (lim : Limits) (v : pyval) :
  forall room level, within_limits lim room v = false ->
                     iterencode lim room level v = None.
Proof.
  induction v as [|b|z|s|l IH|d IH|t|r] using pyval_ind; simpl; intros room level Hw;
    try discriminate; try reflexivity.
  - unfold int_repr. now rewrite Hw.
  - destruct room as [|room']; [reflexivity|].
    destruct l as [|x xs]; [discriminate|].
    rewrite (encode_items_fails (within_limits lim room')
               (iterencode lim room' (S level)) (x :: xs)); [reflexivity| |exact Hw].
    eapply Forall_impl; [exact IH|]. intros v Hv E. now apply Hv.
  - destruct room as [|room']; [reflexivity|].
    destruct d as [|x xs]; [discriminate|].
    rewrite (encode_pairs_fails (within_limits lim room')
               (iterencode lim room' (S level)) (x :: xs)); [reflexivity| |exact Hw].
    eapply Forall_impl; [exact IH|]. intros v Hv E. now apply Hv.
Qed.

(** [json.dumps] writes exactly the structured values within the limits. *)
Lemma json_dumps_accepts (lim : Limits) (v : pyval) :
  is_Some (json_dumps lim v) <-> structured v = true /\ fits lim v = true.
Proof.
  split.
  - intros [js E]. unfold json_dumps in E. split.
    + destruct (structured v) eqn:Hs; [reflexivity|].
      rewrite (iterencode_unstructured lim v Hs) in E. discriminate.
    + unfold fits. destruct (within_limits lim (S (nesting_room lim)) v) eqn:Hw;
        [reflexivity|].
      rewrite (iterencode_beyond_limits lim v _ _ Hw) in E. discriminate.
  - intros [Hs Hw]. now apply json_dumps_structured.
Qed.

(** X1: a response object that a handler returns is the answer as it is:
    the server adds no header of its own to it and does not look at its
    truth value; the database of the session is released as for any other
    result. *)
Theorem passthrough_response (srv : Server) (env : Env) (req : Request)
    (indata : pydict) (ep : Endpoint) (r : Response) (s : Session) :
  parse_formdata env (snd (route (path req))) req = Parsed indata ->
  handlers srv !! fst (route (path req)) = Some ep ->
  exec ep (config srv) (get_session env req) indata = (Return (PyResp r), s) ->
  handle_request srv env req =
    Responded {| response := r;
                 session_after := Some (release s);
                 stderr := [];
                 invoked := [fst (route (path req))] |}.
Proof.
  intros Hp Hl He. rewrite handle_request_routed. simpl.
  now rewrite Hp, Hl, He.
Qed.

Lemma passthrough_response_witness :
  handle_request (extra_server false) (sample_env (Parsed []) anonymous)
    (mkRequest (py "/api/redirect") [])
  = Responded {| response := redirect_response;
                 session_after := Some (release anonymous);
                 stderr := [];
                 invoked := [py "redirect"] |}.
Proof.
  refine (passthrough_response (extra_server false) (sample_env (Parsed []) anonymous)
            (mkRequest (py "/api/redirect") []) [] (returning (PyResp redirect_response))
            redirect_response anonymous _ _ _); vm_compute; reflexivity.
Defined.

(** X2: a result that is true in a condition but holds something
    [json.dumps] does not take is handled as a failure of the handler:
    status 500, body by the disclosure flag, database released.  The
    [content-type] header is already set on that answer. *)
Theorem unserialisable_result_contained (srv : Server) (env : Env) (req : Request)
    (indata : pydict) (ep : Endpoint) (v : pyval) (s : Session) :
  parse_formdata env (snd (route (path req))) req = Parsed indata ->
  handlers srv !! fst (route (path req)) = Some ep ->
  exec ep (config srv) (get_session env req) indata = (Return v, s) ->
  truthy v = true ->
  is_response v = false ->
  structured v = false ->
  exists o,
    handle_request srv env req = Responded o
    /\ status (response o) = 500%Z
    /\ text (response o)
         = (if traceback (config srv)
            then py "API error occurred: " ++ [NL] ++ join [NL] (dumps_traceback env v)
            else generic_error ++ take 18 (uuid4 env))
    /\ headers (response o) !! py "content-type" = Some (py "application/json")
    /\ headers (response o) !! py "Content-Length" = None
    /\ session_after o = Some (release s).
Proof.
  intros Hp Hl He Ht Hr Hs.
  exists (contain srv env req
            (<[py "content-type" := py "application/json"]> base_headers)
            (release s) (dumps_traceback env v) [fst (route (path req))]).
  split.
  - rewrite handle_request_routed. simpl. rewrite Hp, Hl, He, Ht, Hr. simpl.
    unfold json_dumps. now rewrite (iterencode_unstructured _ v Hs).
  - unfold contain. rewrite release_idempotent.
    destruct (traceback (config srv)); simpl;
      (split; [reflexivity|]); (split; [reflexivity|]);
      (split; [apply lookup_insert_eq|]); (split; [vm_compute; reflexivity|reflexivity]).
Qed.

Lemma unserialisable_result_contained_witness :
  exists o,
    handle_request (extra_server true) (sample_env (Parsed []) anonymous)
      (mkRequest (py "/api/object") []) = Responded o
    /\ status (response o) = 500%Z
    /\ text (response o)
         = py "API error occurred: " ++ [NL]
             ++ join [NL] [py "TypeError: Object is not JSON serializable" ++ [NL]]
    /\ headers (response o) !! py "content-type" = Some (py "application/json")
    /\ headers (response o) !! py "Content-Length" = None
    /\ session_after o = Some (release anonymous).
Proof.
  refine (unserialisable_result_contained (extra_server true)
            (sample_env (Parsed []) anonymous) (mkRequest (py "/api/object") []) []
            (returning (PyList [PyObject true])) (PyList [PyObject true]) anonymous
            _ _ _ _ _ _); vm_compute; reflexivity.
Defined.

(** X3: whatever the request, an answer that is not a response object of
    a handler carries the [Server] header with the version of the suite,
    and its status is 200, 400, 404 or 500. *)
Theorem server_header_on_every_answer (srv : Server) (env : Env) (req : Request)
    (o : Outcome) :
  handle_request srv env req = Responded o ->
  (exists indata ep r s,
      parse_formdata env (snd (route (path req))) req = Parsed indata
      /\ handlers srv !! fst (route (path req)) = Some ep
      /\ exec ep (config srv) (get_session env req) indata = (Return (PyResp r), s)
      /\ response o = r)
  \/ (headers (response o) !! py "Server" = Some (py "ASF Infra Boxer Suite v/0.1.0")
      /\ In (status (response o)) [200; 400; 404; 500]%Z).
Proof.
  rewrite handle_request_routed. simpl.
  destruct (parse_formdata env (snd (route (path req))) req) as [indata|e|] eqn:Hp;
    [|intros [= <-]; right; split; [reflexivity|simpl; tauto]|discriminate].
  destruct (handlers srv !! fst (route (path req))) as [ep|] eqn:Hl;
    [|intros [= <-]; right; split; [reflexivity|simpl; tauto]].
  destruct (exec ep (config srv) (get_session env req) indata) as [[v|tb] s] eqn:He.
  - destruct (truthy v && negb (is_response v)).
    + destruct (json_dumps (limits env) v) as [jsout|]; intros [= <-]; right.
      * split; [reflexivity|simpl; tauto].
      * unfold contain. destruct (traceback (config srv));
          (split; [reflexivity|simpl; tauto]).
    + destruct v; intros [= <-];
        try (right; split; [reflexivity|simpl; tauto]).
      left. exists indata, ep, r, s. auto.
  - intros [= <-]. right. unfold contain.
    destruct (traceback (config srv)); (split; [reflexivity|simpl; tauto]).
Qed.

Lemma server_header_on_every_answer_witness :
  let req := mkRequest (py "/api/empty") [] in
  let env := sample_env (Parsed []) anonymous in
  let o := {| response :=
                mkResponse (<[py "content-type" := py "application/json"]> base_headers)
                  status_not_found (py "Content not found");
              session_after := Some (release anonymous);
              stderr := []; invoked := [py "empty"] |} in
  (exists indata ep r s,
      parse_formdata env (snd (route (path req))) req = Parsed indata
      /\ handlers (sample_server true) !! fst (route (path req)) = Some ep
      /\ exec ep (config (sample_server true)) (get_session env req) indata
           = (Return (PyResp r), s)
      /\ response o = r)
  \/ (headers (response o) !! py "Server" = Some (py "ASF Infra Boxer Suite v/0.1.0")
      /\ In (status (response o)) [200; 400; 404; 500]%Z).
Proof.
  intros req env o.
  apply (server_header_on_every_answer (sample_server true) env req o).
  vm_compute. reflexivity.
Defined.

(** X4: the server writes to the error stream only for a failure it
    contains with disclosure off: if anything was written, the flag is
    false, the status is 500 and a handler was awaited. *)
Theorem stderr_only_when_undisclosed (srv : Server) (env : Env) (req : Request)
    (o : Outcome) :
  handle_request srv env req = Responded o ->
  stderr o <> [] ->
  traceback (config srv) = false
  /\ status (response o) = 500%Z
  /\ invoked o = [fst (route (path req))].
Proof.
  rewrite handle_request_routed. simpl.
  destruct (parse_formdata env (snd (route (path req))) req) as [indata|e|];
    [|intros [= <-] H; now destruct H|discriminate].
  destruct (handlers srv !! fst (route (path req))) as [ep|];
    [|intros [= <-] H; now destruct H].
  destruct (exec ep (config srv) (get_session env req) indata) as [[v|tb] s].
  - destruct (truthy v && negb (is_response v)).
    + destruct (json_dumps (limits env) v) as [jsout|]; intros [= <-] H; [now destruct H|].
      unfold contain in *. destruct (traceback (config srv)); [now destruct H|auto].
    + destruct v; intros [= <-] H; now destruct H.
  - intros [= <-] H. unfold contain in *.
    destruct (traceback (config srv)); [now destruct H|auto].
Qed.

Lemma stderr_only_when_undisclosed_witness :
  traceback (config (sample_server false)) = false
  /\ exists o,
       handle_request (sample_server false) (sample_env (Parsed []) anonymous)
         (mkRequest (py "/api/boom") []) = Responded o
       /\ stderr o <> []
       /\ status (response o) = 500%Z
       /\ invoked o = [py "boom"].
Proof.
  pose (o := contain (sample_server false) (sample_env (Parsed []) anonymous)
               (mkRequest (py "/api/boom") []) base_headers anonymous
               sample_traceback [py "boom"]).
  assert (H : handle_request (sample_server false) (sample_env (Parsed []) anonymous)
                (mkRequest (py "/api/boom") []) = Responded o)
    by (vm_compute; reflexivity).
  assert (Hne : stderr o <> []) by (vm_compute; discriminate).
  destruct (stderr_only_when_undisclosed _ _ _ _ H Hne) as (Hf & Hs & Hi).
  split; [exact Hf|]. exists o. repeat split; auto.
Defined.

(** X5: with disclosure off, the answer to a failing handler is the same
    whatever the traceback is and whatever the handler left in the
    session: two handlers that raise get the same response. *)
Theorem undisclosed_answer_hides_traceback (srv1 srv2 : Server) (env : Env)
    (req : Request) (indata : pydict) (ep1 ep2 : Endpoint)
    (tb1 tb2 : list pystr) (s1 s2 : Session) :
  traceback (config srv1) = false ->
  traceback (config srv2) = false ->
  parse_formdata env (snd (route (path req))) req = Parsed indata ->
  handlers srv1 !! fst (route (path req)) = Some ep1 ->
  handlers srv2 !! fst (route (path req)) = Some ep2 ->
  exec ep1 (config srv1) (get_session env req) indata = (Raise tb1, s1) ->
  exec ep2 (config srv2) (get_session env req) indata = (Raise tb2, s2) ->
  exists o1 o2,
    handle_request srv1 env req = Responded o1
    /\ handle_request srv2 env req = Responded o2
    /\ response o1 = response o2.
Proof.
  intros Hf1 Hf2 Hp Hl1 Hl2 He1 He2.
  exists (contain srv1 env req base_headers s1 tb1 [fst (route (path req))]),
         (contain srv2 env req base_headers s2 tb2 [fst (route (path req))]).
  split; [rewrite handle_request_routed; simpl; now rewrite Hp, Hl1, He1|].
  split; [rewrite handle_request_routed; simpl; now rewrite Hp, Hl2, He2|].
  unfold contain. now rewrite Hf1, Hf2.
Qed.

(** * More of the routing *)

Lemma last_piece_In (l : list pystr) : l <> [] -> In (last_piece l) l.
Proof.
  unfold last_piece. induction l as [|w l IH]; [congruence|]. intros _.
  destruct l as [|w' l]; [now left|]. right. apply IH. discriminate.
Qed.

(** X6: a routed name never holds a slash. *)
Theorem route_name_without_slash (request_path : pystr) :
  ~ In SLASH (fst (route request_path)).
Proof.
  assert (H : ~ In SLASH (last_piece (split_on SLASH request_path))).
  { pose proof (split_on_pieces SLASH request_path) as Hp.
    rewrite List.Forall_forall in Hp. apply Hp.
    apply last_piece_In, split_on_not_nil. }
  unfold route. destruct (endswith _ _); simpl; [|exact H].
  intros Hin. apply H. eapply drop_last_In. exact Hin.
Qed.

(** X7: only what follows the last slash of the path is routed: the
    directories before it are not looked at, [/api] no more than any
    other, and a path that ends in a slash is routed to the empty name. *)
Theorem route_last_segment_only (before segment : pystr) :
  ~ In SLASH segment ->
  route (before ++ SLASH :: segment) = route segment
  /\ route (before ++ [SLASH]) = ([], Form).
Proof.
  intros Hs. split.
  - unfold route. rewrite last_piece_split by exact Hs.
    now rewrite split_on_whole.
  - unfold route. rewrite (last_piece_split SLASH before []) by (intros []).
    reflexivity.
Qed.

Lemma route_last_segment_only_witness :
  route (py "/any/where" ++ SLASH :: py "repository.json") = (py "repository", Json)
  /\ route (py "/api/repository" ++ [SLASH]) = ([], Form).
Proof.
  destruct (route_last_segment_only (py "/any/where") (py "repository.json")) as [E _].
  - vm_compute. intuition discriminate.
  - destruct (route_last_segment_only (py "/api/repository") []) as [_ E'];
      [intros []|].
    split; [rewrite E; vm_compute; reflexivity|exact E'].
Defined.

Lemma undisclosed_answer_hides_traceback_witness :
  sample_traceback <> other_traceback
  /\ exists o1 o2,
       handle_request (sample_server false) (sample_env (Parsed []) anonymous)
         (mkRequest (py "/api/boom") []) = Responded o1
       /\ handle_request other_failing_server (sample_env (Parsed []) anonymous)
            (mkRequest (py "/api/boom") []) = Responded o2
       /\ response o1 = response o2.
Proof.
  split; [vm_compute; discriminate|].
  refine (undisclosed_answer_hides_traceback (sample_server false) other_failing_server
            (sample_env (Parsed []) anonymous) (mkRequest (py "/api/boom") []) []
            failing (mkEndpoint (fun _ s _ => (Raise other_traceback, release s)))
            sample_traceback other_traceback anonymous (release anonymous)
            _ _ _ _ _ _ _); vm_compute; reflexivity.
Defined.

(** * More of the start-up loop *)

Section Loading.
Variable import_module : pystr -> option PyModule.
Variable cfg : Config.

Lemma drop_last_py (n : pystr) : drop_last 3 (n ++ py ".py") = n.
Proof. exact (drop_last_app n (py ".py")). Qed.

Lemma py_file_name (f : pystr) :
  endswith f (py ".py") = true -> f = drop_last 3 f ++ py ".py".
Proof. intros [p ->]%endswith_spec. now rewrite drop_last_py. Qed.

(** One file either leaves the registry as it is or puts the endpoint of
    its module under its name. *)
Lemma load_endpoint_cases (hs0 hs : gmap pystr Endpoint) (f : pystr) :
  load_endpoint import_module cfg hs0 f = Some hs ->
  hs = hs0
  \/ exists n ep, f = n ++ py ".py"
                  /\ registers import_module (mkServer cfg hs0) n ep
                  /\ hs = <[n := ep]> hs0.
Proof.
  unfold load_endpoint. intros E.
  destruct (endswith f (py ".py")) eqn:Ef; [|left; now apply (inj Some) in E].
  destruct (import_module (py "endpoints." ++ drop_last 3 f)) as [m|] eqn:Em;
    [|discriminate].
  destruct (register_attr m) as [r|] eqn:Er; [|left; now apply (inj Some) in E].
  destruct (r (mkServer cfg hs0)) as [ep|] eqn:Eep; [|discriminate].
  right. exists (drop_last 3 f), ep.
  split; [now apply py_file_name|]. split; [now exists m, r|].
  now apply (inj Some) in E.
Qed.

Lemma load_endpoint_registers (hs0 : gmap pystr Endpoint) (n : pystr) (ep : Endpoint) :
  registers import_module (mkServer cfg hs0) n ep ->
  load_endpoint import_module cfg hs0 (n ++ py ".py") = Some (<[n := ep]> hs0).
Proof.
  intros (m & r & Em & Er & Eep). unfold load_endpoint.
  rewrite endswith_app, drop_last_py, Em, Er, Eep. reflexivity.
Qed.

Lemma load_endpoint_stops (hs0 : gmap pystr Endpoint) (f : pystr) :
  load_endpoint import_module cfg hs0 f = None
  <-> stops_startup import_module (mkServer cfg hs0) f.
Proof.
  unfold load_endpoint, stops_startup. split.
  - intros E. destruct (endswith f (py ".py")); [|discriminate].
    split; [reflexivity|].
    destruct (import_module (py "endpoints." ++ drop_last 3 f)) as [m|];
      [|now left].
    destruct (register_attr m) as [r|] eqn:Erm; [|discriminate].
    destruct (r (mkServer cfg hs0)) eqn:Er; [discriminate|].
    right. exists m, r. auto.
  - intros [Hpy [Him|(m & r & Em & Er & Ern)]]; rewrite Hpy.
    + now rewrite Him.
    + now rewrite Em, Er, Ern.
Qed.

Lemma load_endpoints_app (l1 l2 : list pystr) :
  forall hs0 : gmap pystr Endpoint,
    load_endpoints import_module cfg hs0 (l1 ++ l2)
    = match load_endpoints import_module cfg hs0 l1 with
      | Some hs1 => load_endpoints import_module cfg hs1 l2
      | None => None
      end.
Proof.
  induction l1 as [|f fs IH]; intros hs0; cbn [load_endpoints app]; [reflexivity|].
  destruct (load_endpoint import_module cfg hs0 f) as [hs1|]; [apply IH|reflexivity].
Qed.

(** The files of other names, and a module without [register], leave the
    entry of a name as it is. *)
Lemma load_endpoints_untouched (listing : list pystr) :
  forall (hs0 hs : gmap pystr Endpoint) (n : pystr),
    load_endpoints import_module cfg hs0 listing = Some hs ->
    (In (n ++ py ".py") listing ->
     exists m, import_module (py "endpoints." ++ n) = Some m
               /\ register_attr m = None) ->
    hs !! n = hs0 !! n.
Proof.
  induction listing as [|f fs IH]; intros hs0 hs n E H; cbn [load_endpoints] in E.
  - congruence.
  - destruct (load_endpoint import_module cfg hs0 f) as [hs1|] eqn:E1; [|discriminate].
    rewrite (IH hs1 hs n E) by (intros Hin; apply H; now right).
    destruct (load_endpoint_cases _ _ _ E1) as [->|(k & e & -> & Hr & ->)];
      [reflexivity|].
    destruct (decide (k = n)) as [->|Hne]; [|now rewrite lookup_insert_ne].
    destruct (H (or_introl eq_refl)) as (m & Em & Er).
    destruct Hr as (m' & r & Em' & Er' & _). congruence.
Qed.

Lemma in_split_last (x : pystr) (l : list pystr) :
  In x l -> exists l1 l2, l = l1 ++ x :: l2 /\ ~ In x l2.
Proof.
  induction l as [|y l IH]; intros Hin; [destruct Hin|].
  destruct (in_dec (fun a b : pystr => decide (a = b)) x l) as [Hl|Hl].
  - destruct (IH Hl) as (l1 & l2 & -> & H2). now exists (y :: l1), l2.
  - destruct Hin as [->|Hin]; [|contradiction]. now exists [], l.
Qed.

Lemma load_endpoints_lookup (listing : list pystr) (hs : gmap pystr Endpoint)
    (n : pystr) (ep : Endpoint) :
  load_endpoints import_module cfg ∅ listing = Some hs ->
  (hs !! n = Some ep
   <-> exists before after hs0,
         listing = before ++ (n ++ py ".py") :: after
         /\ ~ In (n ++ py ".py") after
         /\ load_endpoints import_module cfg ∅ before = Some hs0
         /\ registers import_module (mkServer cfg hs0) n ep).
Proof.
  intros E. split.
  - intros Hn.
    destruct (in_dec (fun a b : pystr => decide (a = b)) (n ++ py ".py") listing)
      as [Hin|Hnin].
    + destruct (in_split_last _ _ Hin) as (l1 & l2 & -> & Hl2).
      rewrite load_endpoints_app in E.
      destruct (load_endpoints import_module cfg ∅ l1) as [hs0|] eqn:E0; [|discriminate].
      cbn [load_endpoints] in E.
      destruct (load_endpoint import_module cfg hs0 (n ++ py ".py")) as [hs1|] eqn:E1;
        [|discriminate].
      assert (H1 : hs1 !! n = Some ep).
      { rewrite <- Hn. symmetry. apply (load_endpoints_untouched l2 hs1 hs n E).
        intros Hc. contradiction. }
      exists l1, l2, hs0. split; [reflexivity|]. split; [exact Hl2|].
      split; [exact E0|].
      unfold load_endpoint in E1. rewrite endswith_app, drop_last_py in E1.
      destruct (import_module (py "endpoints." ++ n)) as [m|] eqn:Em; [|discriminate].
      destruct (register_attr m) as [r|] eqn:Er.
      * destruct (r (mkServer cfg hs0)) as [e|] eqn:Ee; [|discriminate].
        apply (inj Some) in E1. subst hs1. rewrite lookup_insert_eq in H1.
        apply (inj Some) in H1. subst e. now exists m, r.
      * apply (inj Some) in E1. subst hs1.
        rewrite (load_endpoints_untouched l1 ∅ hs0 n E0) in H1 by (intros _; eauto).
        rewrite lookup_empty in H1. discriminate.
    + rewrite (load_endpoints_untouched listing ∅ hs n E) in Hn
        by (intros Hc; contradiction).
      rewrite lookup_empty in Hn. discriminate.
  - intros (l1 & l2 & hs0 & -> & Hl2 & E0 & Hr).
    rewrite load_endpoints_app, E0 in E. cbn [load_endpoints] in E.
    rewrite (load_endpoint_registers _ _ _ Hr) in E.
    rewrite (load_endpoints_untouched l2 _ hs n E) by (intros Hc; contradiction).
    apply lookup_insert_eq.
Qed.

Lemma load_endpoints_abort (listing : list pystr) :
  forall hs : gmap pystr Endpoint,
    load_endpoints import_module cfg hs listing = None
    <-> exists before f after hs0,
          listing = before ++ f :: after
          /\ load_endpoints import_module cfg hs before = Some hs0
          /\ stops_startup import_module (mkServer cfg hs0) f.
Proof.
  induction listing as [|f fs IH]; intros hs; cbn [load_endpoints].
  - split; [discriminate|]. intros ([|b bs] & g & a & hs0 & E & _); discriminate.
  - destruct (load_endpoint import_module cfg hs f) as [hs1|] eqn:E1.
    + rewrite IH. split.
      * intros (b & g & a & hs0 & -> & Eb & Hs). exists (f :: b), g, a, hs0.
        split; [reflexivity|]. split; [|exact Hs].
        cbn [load_endpoints]. now rewrite E1.
      * intros ([|f' b] & g & a & hs0 & El & Eb & Hs).
        -- cbn [app] in El. cbn [load_endpoints] in Eb.
           apply (inj2 cons) in El as [<- <-]. apply (inj Some) in Eb. subst hs0.
           apply load_endpoint_stops in Hs. congruence.
        -- cbn [app] in El. apply (inj2 cons) in El as [<- ->].
           cbn [load_endpoints] in Eb. rewrite E1 in Eb. now exists b, g, a, hs0.
    + split; [intros _|reflexivity]. exists [], f, fs, hs.
      split; [reflexivity|]. split; [reflexivity|]. now apply load_endpoint_stops.
Qed.



Section Indifferent.
Hypothesis Hignores : ignores_handlers import_module cfg.

(** What a file does to the registry, when no [register] looks at it. *)
Lemma load_endpoint_shape (f : pystr) :
  (forall hs, load_endpoint import_module cfg hs f = Some hs)
  \/ (forall hs, load_endpoint import_module cfg hs f = None)
  \/ exists ep,
       endswith f (py ".py") = true
       /\ forall hs, load_endpoint import_module cfg hs f
                     = Some (<[drop_last 3 f := ep]> hs).
Proof.
  unfold load_endpoint.
  destruct (endswith f (py ".py")) eqn:Ef; [|now left].
  destruct (import_module (py "endpoints." ++ drop_last 3 f)) as [m|] eqn:Em;
    [|right; now left].
  destruct (register_attr m) as [r|] eqn:Er; [|now left].
  destruct (r (mkServer cfg ∅)) as [ep|] eqn:Eep.
  - right; right. exists ep. split; [reflexivity|].
    intros hs. now rewrite (Hignores _ m r hs Em Er), Eep.
  - right; left. intros hs. now rewrite (Hignores _ m r hs Em Er), Eep.
Qed.

Lemma load_endpoint_swap (hs : gmap pystr Endpoint) (x y : pystr) :
  match load_endpoint import_module cfg hs x with
  | Some h => load_endpoint import_module cfg h y
  | None => None
  end
  = match load_endpoint import_module cfg hs y with
    | Some h => load_endpoint import_module cfg h x
    | None => None
    end.
Proof.
  destruct (load_endpoint_shape x) as [Hx|[Hx|(ex & Hpx & Hx)]];
    destruct (load_endpoint_shape y) as [Hy|[Hy|(ey & Hpy & Hy)]];
    repeat first [rewrite Hx | rewrite Hy | progress cbv beta iota];
    try reflexivity.
  f_equal. destruct (decide (drop_last 3 x = drop_last 3 y)) as [E|Hne];
    [|apply insert_insert_ne; congruence].
  assert (Exy : x = y)
    by (rewrite (py_file_name x Hpx), (py_file_name y Hpy); now rewrite E).
  subst y. pose proof (Hx ∅) as H1. rewrite (Hy ∅) in H1.
  apply (inj Some) in H1.
  apply (f_equal (fun h : gmap pystr Endpoint => h !! drop_last 3 x)) in H1.
  rewrite !lookup_insert_eq in H1. apply (inj Some) in H1. now subst.
Qed.

Lemma load_endpoints_permutation (listing listing' : list pystr) :
  Permutation listing listing' ->
  forall hs : gmap pystr Endpoint,
    load_endpoints import_module cfg hs listing
    = load_endpoints import_module cfg hs listing'.
Proof.
  induction 1 as [|x l l' _ IH|x y l|l l' l'' _ IH1 _ IH2]; intros hs;
    cbn [load_endpoints].
  - reflexivity.
  - destruct (load_endpoint import_module cfg hs x); [apply IH|reflexivity].
  - pose proof (load_endpoint_swap hs x y) as Hsw.
    destruct (load_endpoint import_module cfg hs x) as [hx|],
             (load_endpoint import_module cfg hs y) as [hy|];
      try reflexivity.
    + now rewrite Hsw.
    + now rewrite Hsw.
    + now rewrite <- Hsw.
  - now rewrite IH1.
Qed.

End Indifferent.
End Loading.


Lemma mixed_import_ignores (cfg : Config) : ignores_handlers mixed_import cfg.
Proof.
  intros name m r hs Em Er. unfold mixed_import in Em.
  destruct (pystr_eqb name (py "endpoints.repository")).
  - apply (inj Some) in Em. subst m. apply (inj Some) in Er. now subst r.
  - destruct (pystr_eqb name (py "endpoints.helpers")); [|discriminate].
    apply (inj Some) in Em. subst m. discriminate.
Qed.


(** The order does matter for a [register] that looks at the handlers: the
    endpoint of [count] is another one when [repository.py] is listed
    before [count.py]. *)
Lemma registry_order_matters :
  load_endpoints counting_import (sample_config true) ∅
    [py "count.py"; py "repository.py"]
  <> load_endpoints counting_import (sample_config true) ∅
       [py "repository.py"; py "count.py"].
Proof.
  intros E.
  apply (f_equal (fun o : option (gmap pystr Endpoint) =>
                    match o with
                    | Some hs =>
                        match hs !! py "count" with
                        | Some ep => fst (exec ep (sample_config true) anonymous [])
                        | None => Return PyNone
                        end
                    | None => Return PyNone
                    end)) in E.
  vm_compute in E. discriminate E.
Qed.

(** A [register] that cannot be called ends the start-up, though its module
    is imported. *)
Lemma broken_register_stops_startup :
  load_endpoints broken_import (sample_config true) ∅
    [py "repository.py"; py "broken.py"] = None
  /\ is_Some (broken_import (py "endpoints.broken")).
Proof. split; [vm_compute; reflexivity|]. vm_compute. eauto. Qed.

(** * The pattern of repository names *)

Lemma startswith_spec (s p : pystr) :
  startswith s p = true <-> exists s', s = p ++ s'.
Proof.
  unfold startswith. rewrite pystr_eqb_eq. split.
  - intros H. exists (drop (length p) s).
    transitivity (take (length p) s ++ drop (length p) s);
      [symmetry; apply take_drop|now rewrite H].
  - intros [s' ->]. apply take_app_length.
Qed.

Lemma startswith_app (p s : pystr) : startswith (p ++ s) p = true.
Proof. apply startswith_spec. now exists s. Qed.

Lemma at_end_spec (s : pystr) : at_end s = true <-> s = [] \/ s = [NL].
Proof.
  destruct s as [|c [|c' s]]; simpl.
  - tauto.
  - rewrite andb_true_r, N.eqb_eq. split; [intros ->; now right|].
    intros [H|H]; congruence.
  - rewrite andb_false_r. split; [discriminate|]. intros [H|H]; discriminate.
Qed.

Section PlusClass.
Context {R : Type}.
Variable cls : N -> bool.

Lemma plus_class_sound (s : pystr) (k : pystr -> option R) (x : R) :
  plus_class cls s k = Some x ->
  exists w s', s = w ++ s' /\ w <> []
               /\ Forall (fun c => cls c = true) w /\ k s' = Some x.
Proof.
  induction s as [|c s IH]; simpl; [discriminate|].
  destruct (cls c) eqn:Ec; [|discriminate].
  destruct (plus_class cls s k) as [y|] eqn:E.
  - intros [= ->]. destruct (IH eq_refl) as (w & s' & -> & Hw & Hall & Hk).
    exists (c :: w), s'. repeat split; auto; try discriminate.
  - intros Hk. exists [c], s. repeat split; auto; try discriminate.
Qed.

(** The class takes all it can when the rest of the match goes through
    from there. *)
Lemma plus_class_greedy (w s' : pystr) (k : pystr -> option R) (x : R) :
  w <> [] ->
  Forall (fun c => cls c = true) w ->
  (forall c s'', s' = c :: s'' -> cls c = false) ->
  k s' = Some x ->
  plus_class cls (w ++ s') k = Some x.
Proof.
  intros Hw Hall Hstop Hk. induction Hall as [|c w Hc Hall IH]; [congruence|].
  simpl. rewrite Hc. destruct w as [|c' w].
  - simpl. destruct s' as [|d s'']; simpl; [exact Hk|].
    rewrite (Hstop d s'' eq_refl). exact Hk.
  - rewrite IH; [reflexivity|discriminate].
Qed.
End PlusClass.

Lemma re_run_Seq r1 r2 s g k :
  re_run (Seq r1 r2) s g k = re_run r1 s g (fun s' g' => re_run r2 s' g' k).
Proof. reflexivity. Qed.

Lemma re_run_Group i r s g k :
  re_run (Group i r) s g k
  = re_run r s g (fun s' g' => k s' (<[i := take (length s - length s') s]> g')).
Proof. reflexivity. Qed.

Lemma re_run_Plus cls s g k :
  re_run (Plus cls) s g k = plus_class cls s (fun s' => k s' g).
Proof. reflexivity. Qed.

Lemma re_run_Opt r s g k :
  re_run (Opt r) s g k
  = match re_run r s g k with Some x => Some x | None => k s g end.
Proof. reflexivity. Qed.

Lemma re_run_Lit l s g k : re_run (Lit l) (l ++ s) g k = k s g.
Proof. simpl. now rewrite startswith_app, drop_app_length. Qed.

Lemma re_run_End s g k : at_end s = true -> re_run EndOfString s g k = k s g.
Proof. simpl. now intros ->. Qed.

Lemma take_consumed (w s' : pystr) : take (length (w ++ s') - length s') (w ++ s') = w.
Proof.
  rewrite length_app.
  replace (length w + length s' - length s')%nat with (length w) by lia.
  apply take_app_length.
Qed.

(** The matcher finds only what the pattern matches. *)
Lemma re_run_sound (r : regex) :
  forall s g k x,
    re_run r s g k = Some x ->
    exists w s' g', s = w ++ s' /\ matches r w s' g g' /\ k s' g' = Some x.
Proof.
  induction r as [l|cls|r IH|i r IH|r1 IH1 r2 IH2|]; intros s g k x.
  - simpl. destruct (startswith s l) eqn:E; [|discriminate].
    apply startswith_spec in E as [s' ->]. rewrite drop_app_length. intros Hk.
    exists l, s', g. split; [reflexivity|]. split; [apply matches_lit|exact Hk].
  - rewrite re_run_Plus. intros (w & s' & -> & Hw & Hall & Hk)%plus_class_sound.
    exists w, s', g. split; [reflexivity|]. split; [now apply matches_plus|exact Hk].
  - rewrite re_run_Opt. destruct (re_run r s g k) as [y|] eqn:E.
    + intros [= ->]. destruct (IH _ _ _ _ E) as (w & s' & g' & -> & Hm & Hk).
      exists w, s', g'. split; [reflexivity|]. split; [now apply matches_opt_some|exact Hk].
    + intros Hk. exists [], s, g. split; [reflexivity|]. split; [apply matches_opt_none|exact Hk].
  - rewrite re_run_Group. intros (w & s' & g' & -> & Hm & Hk)%IH.
    rewrite take_consumed in Hk.
    exists w, s', (<[i := w]> g'). split; [reflexivity|]. split; [now apply matches_group|exact Hk].
  - rewrite re_run_Seq. intros (w1 & s1 & g1 & -> & Hm1 & Hk1)%IH1.
    apply IH2 in Hk1 as (w2 & s2 & g2 & -> & Hm2 & Hk2).
    exists (w1 ++ w2), s2, g2. split; [now rewrite app_assoc|].
    split; [eapply matches_seq; eassumption|exact Hk2].
  - simpl. destruct (at_end s) eqn:E; [|discriminate]. intros Hk.
    exists [], s, g. split; [reflexivity|]. split; [now apply matches_end|exact Hk].
Qed.

Lemma matches_Lit_inv l w rest g g' :
  matches (Lit l) w rest g g' -> w = l /\ g' = g.
Proof. inversion 1; subst; auto. Qed.

Lemma matches_Plus_inv cls w rest g g' :
  matches (Plus cls) w rest g g' ->
  w <> [] /\ Forall (fun c => cls c = true) w /\ g' = g.
Proof. inversion 1; subst; auto. Qed.

Lemma matches_Opt_inv r w rest g g' :
  matches (Opt r) w rest g g' -> matches r w rest g g' \/ (w = [] /\ g' = g).
Proof. inversion 1; subst; auto. Qed.

Lemma matches_Group_inv i r w rest g g' :
  matches (Group i r) w rest g g' ->
  exists g1, matches r w rest g g1 /\ g' = <[i := w]> g1.
Proof. inversion 1; subst; eauto. Qed.

Lemma matches_Seq_inv r1 r2 w rest g g' :
  matches (Seq r1 r2) w rest g g' ->
  exists w1 w2 g1, w = w1 ++ w2 /\ matches r1 w1 (w2 ++ rest) g g1
                   /\ matches r2 w2 rest g1 g'.
Proof. inversion 1; subst; eauto 10. Qed.

Lemma matches_End_inv w rest g g' :
  matches EndOfString w rest g g' -> w = [] /\ g' = g /\ at_end rest = true.
Proof. inversion 1; subst; auto. Qed.

(** The parts of a name that the pattern matches. *)
Lemma repo_name_parts (name : pystr) (g : gmap nat pystr) :
  re_match REPO_NAME name = Some g ->
  exists pre pmc rest tail,
    name = pre ++ pmc ++ rest ++ py ".git" ++ tail
    /\ g !! 1%nat = Some pmc
    /\ (pre = [] \/ pre = py "incubator-")
    /\ pmc <> []
    /\ Forall (fun c => lower_alnum c = true) pmc
    /\ (rest = [] \/ exists d, rest = py "-" ++ d /\ d <> []
                               /\ Forall (fun c => dash_lower_alnum c = true) d)
    /\ (tail = [] \/ tail = [NL]).
Proof.
  unfold re_match, REPO_NAME.
  intros (w & tail & g' & -> & Hm & Hg)%re_run_sound.
  apply (inj Some) in Hg. subst g.
  apply matches_Seq_inv in Hm as (pre & w1 & g0 & -> & Hpre & Hm).
  apply matches_Seq_inv in Hm as (pmc & w2 & g1 & -> & Hpmc & Hm).
  apply matches_Seq_inv in Hm as (rest & w3 & g2 & -> & Hrest & Hm).
  apply matches_Seq_inv in Hm as (dot & w4 & g3 & -> & Hdot & Hm).
  apply matches_Lit_inv in Hdot as [-> ->].
  apply matches_End_inv in Hm as (-> & -> & Hend).
  apply matches_Group_inv in Hpmc as (g4 & Hpmc & ->).
  apply matches_Plus_inv in Hpmc as (Hne & Hall & ->).
  exists pre, pmc, rest, tail. rewrite app_nil_r, <- !app_assoc.
  split; [reflexivity|].
  assert (Hpre' : pre = [] \/ pre = py "incubator-").
  { apply matches_Opt_inv in Hpre as [Hl|[-> _]]; [|now left].
    apply matches_Lit_inv in Hl as [-> _]. now right. }
  apply at_end_spec in Hend.
  apply matches_Opt_inv in Hrest as [Hg|[-> ->]].
  - apply matches_Group_inv in Hg as (g5 & Hs & ->).
    apply matches_Seq_inv in Hs as (dash & d & g6 & -> & Hd & Hc).
    apply matches_Lit_inv in Hd as [-> ->].
    apply matches_Plus_inv in Hc as (Hne' & Hall' & ->).
    split; [rewrite lookup_insert_ne by discriminate; apply lookup_insert_eq|].
    repeat (split; [assumption|]). split; [|assumption].
    right. exists d. auto.
  - split; [apply lookup_insert_eq|].
    repeat (split; [assumption|]). split; [now left|assumption].
Qed.

(** X11: a repository name that [process] lets through is made of an
    optional ["incubator-"], the project (one or more of [a-z0-9]), an
    optional dash and more of [-0-9a-z], and [".git"]; one newline may
    follow.  The first group, the project, is never empty. *)
Theorem repo_name_shape (name : pystr) (g : gmap nat pystr) :
  re_match REPO_NAME name = Some g ->
  exists pre pmc rest tail,
    name = pre ++ pmc ++ rest ++ py ".git" ++ tail
    /\ g !! 1%nat = Some pmc
    /\ (pre = [] \/ pre = py "incubator-")
    /\ pmc <> []
    /\ Forall (fun c => lower_alnum c = true) pmc
    /\ (rest = [] \/ exists d, rest = py "-" ++ d /\ d <> []
                               /\ Forall (fun c => dash_lower_alnum c = true) d)
    /\ (tail = [] \/ tail = [NL]).
Proof. apply repo_name_parts. Qed.

Lemma repo_name_shape_witness :
  exists g,
    re_match REPO_NAME (py "incubator-sling-foo.git") = Some g
    /\ exists pre pmc rest tail,
         py "incubator-sling-foo.git" = pre ++ pmc ++ rest ++ py ".git" ++ tail
         /\ g !! 1%nat = Some pmc
         /\ (pre = [] \/ pre = py "incubator-")
         /\ pmc <> []
         /\ Forall (fun c => lower_alnum c = true) pmc
         /\ (rest = [] \/ exists d, rest = py "-" ++ d /\ d <> []
                                    /\ Forall (fun c => dash_lower_alnum c = true) d)
         /\ (tail = [] \/ tail = [NL]).
Proof.
  destruct (re_match REPO_NAME (py "incubator-sling-foo.git")) as [g|] eqn:E;
    [|vm_compute in E; discriminate E].
  exists g. split; [reflexivity|]. exact (repo_name_shape _ _ E).
Defined.

(** Where a run of one class ends and the next character is of another,
    the run is what it is. *)
Lemma prefix_boundary (P : N -> bool) (a : pystr) :
  forall (p q t : pystr) (c : N),
    Forall (fun x => P x = true) a -> P c = false ->
    Forall (fun x => P x = true) p ->
    (forall x q', q = x :: q' -> P x = false) ->
    a ++ c :: t = p ++ q -> p = a /\ q = c :: t.
Proof.
  induction a as [|y a IH]; intros p q t c Ha Hc Hp Hq E.
  - destruct p as [|x p]; [auto|]. simpl in E. injection E as -> _.
    inversion Hp; congruence.
  - inversion Ha as [|? ? Hy Ha']; subst. destruct p as [|x p].
    + simpl in E. symmetry in E. specialize (Hq _ _ E). congruence.
    + simpl in E. injection E as -> E. inversion Hp; subst.
      destruct (IH p q t c Ha' Hc ltac:(assumption) Hq E) as [-> ->]. auto.
Qed.

Section RepoNames.
Variables (pmc rest tail : pystr).
Hypothesis pmc_not_empty : pmc <> [].
Hypothesis pmc_alnum : Forall (fun c => lower_alnum c = true) pmc.
Hypothesis rest_shape :
  rest = [] \/ exists d, rest = py "-" ++ d /\ d <> []
                         /\ Forall (fun c => dash_lower_alnum c = true) d.
Hypothesis tail_shape : tail = [] \/ tail = [NL].

Lemma run_dot_git (g : gmap nat pystr) :
  re_run (Seq (Lit (py ".git")) EndOfString) (py ".git" ++ tail) g accept = Some g.
Proof.
  rewrite re_run_Seq, re_run_Lit. apply re_run_End. now apply at_end_spec.
Qed.

Lemma run_rest (g : gmap nat pystr) :
  exists g',
    re_run (Seq (Opt (Group 2 (Seq (Lit (py "-")) (Plus dash_lower_alnum))))
              (Seq (Lit (py ".git")) EndOfString))
      (rest ++ py ".git" ++ tail) g accept = Some g'
    /\ g' !! 1%nat = g !! 1%nat.
Proof.
  rewrite re_run_Seq, re_run_Opt, re_run_Group, re_run_Seq.
  destruct rest_shape as [->|(d & -> & Hd & Hall)].
  - exists g. split; [|reflexivity].
    change (re_run (Lit (py "-")) ([] ++ py ".git" ++ tail) g _) with (@None (gmap nat pystr)).
    apply run_dot_git.
  - rewrite <- app_assoc, re_run_Lit, re_run_Plus.
    eexists. split.
    + erewrite plus_class_greedy; [reflexivity|exact Hd|exact Hall| |].
      * intros c s'' E. change (py ".git" ++ tail) with (46 :: py "git" ++ tail) in E.
        injection E as <- _. reflexivity.
      * apply run_dot_git.
    + now rewrite lookup_insert_ne.
Qed.

Lemma rest_starts_outside (c : N) (s : pystr) :
  rest ++ py ".git" ++ tail = c :: s -> lower_alnum c = false.
Proof.
  destruct rest_shape as [->|(d & -> & _)].
  - change ([] ++ py ".git" ++ tail) with (46 :: py "git" ++ tail).
    intros [= <- _]. reflexivity.
  - change ((py "-" ++ d) ++ py ".git" ++ tail) with (45 :: d ++ py ".git" ++ tail).
    intros [= <- _]. reflexivity.
Qed.

Lemma run_project :
  exists g,
    re_run (Seq (Group 1 (Plus lower_alnum))
              (Seq (Opt (Group 2 (Seq (Lit (py "-")) (Plus dash_lower_alnum))))
                 (Seq (Lit (py ".git")) EndOfString)))
      (pmc ++ rest ++ py ".git" ++ tail) ∅ accept = Some g
    /\ g !! 1%nat = Some pmc.
Proof.
  rewrite re_run_Seq, re_run_Group, re_run_Plus.
  destruct (run_rest (<[1%nat := pmc]> ∅)) as (g & Hg & H1).
  exists g. split; [|now rewrite H1, lookup_insert_eq].
  erewrite plus_class_greedy;
    [reflexivity|exact pmc_not_empty|exact pmc_alnum|exact rest_starts_outside|].
  rewrite take_consumed. exact Hg.
Qed.

(** X12: the project of a name.  A name that begins with ["incubator-"]
    and goes on as a project name does is let through, and its project is
    what follows the ["incubator-"]; a name without it is let through with
    the project it begins with.  One newline behind [".git"] does not
    matter. *)
Theorem repo_name_project :
  (exists g,
      re_match REPO_NAME (py "incubator-" ++ pmc ++ rest ++ py ".git" ++ tail) = Some g
      /\ g !! 1%nat = Some pmc)
  /\ (~ (pmc = py "incubator" /\ rest <> []) ->
      exists g,
        re_match REPO_NAME (pmc ++ rest ++ py ".git" ++ tail) = Some g
        /\ g !! 1%nat = Some pmc).
Proof.
  destruct run_project as (g & Hg & H1). split.
  - exists g. split; [|exact H1].
    unfold re_match, REPO_NAME. rewrite re_run_Seq, re_run_Opt, re_run_Lit.
     now rewrite Hg.
  - intros Hno. exists g. split; [|exact H1].
    unfold re_match, REPO_NAME. rewrite re_run_Seq, re_run_Opt. 
    assert (E : re_run (Lit (py "incubator-")) (pmc ++ rest ++ py ".git" ++ tail) ∅
                  (fun s' g' =>
                     re_run (Seq (Group 1 (Plus lower_alnum))
                               (Seq (Opt (Group 2 (Seq (Lit (py "-"))
                                                     (Plus dash_lower_alnum))))
                                  (Seq (Lit (py ".git")) EndOfString))) s' g' accept)
                = None); [|now rewrite E].
    simpl. destruct (startswith _ _) eqn:Es; [exfalso|reflexivity].
    apply startswith_spec in Es as [t Et].
    change (py "incubator-" ++ t) with (py "incubator" ++ 45 :: t) in Et.
    symmetry in Et.
    assert (Hinc : Forall (fun x => lower_alnum x = true) (py "incubator")).
    { apply List.Forall_forall. intros x Hx. vm_compute in Hx.
      repeat (destruct Hx as [<-|Hx]; [reflexivity|]). destruct Hx. }
    destruct (prefix_boundary lower_alnum (py "incubator") pmc
                (rest ++ py ".git" ++ tail) t 45 Hinc eq_refl pmc_alnum
                rest_starts_outside Et) as [Hp Hq].
    apply Hno. split; [exact Hp|]. intros ->. discriminate Hq.
Qed.
End RepoNames.

Lemma repo_name_project_witness :
  (exists g,
      re_match REPO_NAME (py "incubator-" ++ py "sling" ++ py "-foo" ++ py ".git" ++ [NL])
        = Some g
      /\ g !! 1%nat = Some (py "sling"))
  /\ (~ (py "sling" = py "incubator" /\ py "-foo" <> []) ->
      exists g,
        re_match REPO_NAME (py "sling" ++ py "-foo" ++ py ".git" ++ [NL]) = Some g
        /\ g !! 1%nat = Some (py "sling")).
Proof.
  apply (repo_name_project (py "sling") (py "-foo") [NL]).
  - vm_compute. discriminate.
  - apply List.Forall_forall. intros x Hx. vm_compute in Hx.
    repeat (destruct Hx as [<-|Hx]; [reflexivity|]). destruct Hx.
  - right. exists (py "foo"). split; [reflexivity|]. split; [vm_compute; discriminate|].
    apply List.Forall_forall. intros x Hx. vm_compute in Hx.
    repeat (destruct Hx as [<-|Hx]; [reflexivity|]). destruct Hx.
  - now right.
Defined.

(** * The [create] branch *)

Section Frames.
Context {A B : Type}.

Lemma framed_ret (a : A) : framed (ret a).
Proof. intros log. simpl. now rewrite app_nil_r. Qed.

Lemma framed_leave (c : Completion) : framed (@leave A c).
Proof. intros log. simpl. now rewrite app_nil_r. Qed.

Lemma framed_ask (e : Effect) (a : A) : framed (ask e a).
Proof. intros log. reflexivity. Qed.

Lemma framed_bind (m : Step A) (k : A -> Step B) :
  framed m -> (forall a, framed (k a)) -> framed (bind m k).
Proof.
  intros Hm Hk log. unfold bind. rewrite (Hm log).
  destruct (m []) as [[a|c] l1]; simpl; [|reflexivity].
  rewrite (Hk a (log ++ l1)), (Hk a l1). simpl. now rewrite app_assoc.
Qed.

(** Two steps in a row, from the empty log. *)
Lemma bind_run (m : Step A) (k : A -> Step B) :
  (forall a, framed (k a)) ->
  bind m k [] =
    match m [] with
    | (inl a, l1) => (fst (k a []), l1 ++ snd (k a []))
    | (inr c, l1) => (inr c, l1)
    end.
Proof.
  intros Hk. unfold bind. destruct (m []) as [[a|c] l1]; [|reflexivity].
  apply Hk.
Qed.
End Frames.

Lemma framed_call (e : Effect) (error : option (list pystr)) : framed (call e error).
Proof. intros log. unfold call. now destruct error. Qed.

Ltac framed_step :=
  first
    [ apply framed_ret | apply framed_leave | apply framed_call | apply framed_ask
    | apply framed_bind; [|intros ?]
    | match goal with
      | |- framed (if ?b then _ else _) => destruct b
      | |- framed (match ?x with _ => _ end) => destruct x
      end ].

Lemma framed_create_repo w server repo title pmc private :
  framed (create_repo w server repo title pmc private).
Proof. unfold create_repo. cbv zeta. repeat framed_step. Qed.

Lemma framed_check_ownership w cred pmc : framed (check_ownership w cred pmc).
Proof. unfold check_ownership. repeat framed_step. Qed.

Lemma framed_prepare_private w pmc pmc_dir : framed (prepare_private w pmc pmc_dir).
Proof. unfold prepare_private. repeat framed_step. Qed.

Lemma framed_find_place w server cred reponame pmc private :
  framed (find_place w server cred reponame pmc private).
Proof.
  unfold find_place. cbv zeta.
  repeat first [apply framed_prepare_private | framed_step].
Qed.

Lemma framed_make_repository w server cred indata reponame pmc title private gb path :
  framed (make_repository w server cred indata reponame pmc title private gb path).
Proof.
  unfold make_repository. cbv zeta.
  repeat first [apply framed_create_repo | framed_step].
Qed.

Lemma in_list_In (x : pystr) (l : list pystr) : in_list x l = true <-> In x l.
Proof.
  unfold in_list. rewrite existsb_exists. split.
  - intros (y & Hy & E). apply pystr_eqb_eq in E. now subst.
  - intros H. exists x. split; [exact H|apply pystr_eqb_refl].
Qed.

(** The LDAP check asks LDAP at most, and lets through whom [authorised]
    lets through. *)
Lemma check_ownership_run w cred pmc r l :
  check_ownership w cred pmc [] = (r, l) ->
  Forall (fun e => changes_something e = false) l
  /\ (forall u, r = inl u -> authorised w cred pmc).
Proof.
  unfold check_ownership, authorised.
  destruct (admin cred) eqn:Ea;
    [intros [= <- <-]; split; [constructor|]; intros _ _; now left|].
  destruct (member cred && in_list pmc EXEC_ADDITIONAL_PROJECTS) eqn:Ei.
  { intros [= <- <-]. split; [constructor|]. intros _ _. right. left.
    apply andb_true_iff in Ei as [Em Ei]. split; [exact Em|now apply in_list_In]. }
  cbn [negb andb]. unfold bind, ask.
  destruct (ldap_get_members w pmc) as [cl pl|tb] eqn:El.
  - destruct pl as [|p pl].
    + intros [= <- <-]. split; [repeat constructor|discriminate].
    + destruct (in_list (uid cred) (p :: pl)) eqn:Eu; cbn [negb];
        intros [= <- <-]; (split; [repeat constructor|]); [|discriminate].
      intros _ _. right. right. exists cl, (p :: pl).
      split; [reflexivity|now apply in_list_In].
  - intros [= <- <-]. split; [repeat constructor|discriminate].
Qed.

(** A place is found, and anything is prepared for it, for the staff only
    when the repository is to be private; the place found is free. *)
Lemma find_place_run w server cred reponame pmc private r l :
  find_place w server cred reponame pmc private [] = (r, l) ->
  (l <> [] -> truthy private = true /\ admin cred = true)
  /\ (forall place, r = inl place ->
        (truthy private = true -> admin cred = true)
        /\ path_exists w (snd place) = false).
Proof.
  unfold find_place. cbv zeta.
  destruct (truthy private) eqn:Ep; simpl.
  - destruct (admin cred) eqn:Ea; simpl.
    + rewrite bind_run by (intros ?; repeat framed_step).
      destruct (prepare_private w pmc _ []) as [[u|c] l1]; simpl.
      * destruct (path_exists w _) eqn:Ex; simpl; intros [= <- <-];
          (split; [auto|]); [discriminate|].
        intros place [= <-]. simpl. auto.
      * intros [= <- <-]. split; [auto|discriminate].
    + intros [= <- <-]. split; [congruence|discriminate].
  - destruct (path_exists w _) eqn:Ex; simpl; intros [= <- <-];
      (split; [congruence|]); [discriminate|].
    intros place [= <-]. simpl. split; [discriminate|exact Ex].
Qed.

Lemma group_lookup (m : gmap nat pystr) (i : nat) (x : pystr) :
  m !! i = Some x -> group m i = x.
Proof. unfold group, pystr in *. now intros ->. Qed.

(** The three parts of the branch, one after the other. *)
Lemma create_steps_run w server session indata cred reponame m :
  credentials session = Some cred ->
  dict_get indata (py "repository") = PyStr reponame ->
  re_match REPO_NAME reponame = Some m ->
  create_steps w server session indata [] =
    let pmc := group m 1 in
    let private := dict_get_or indata (py "private") (PyBool false) in
    let title := dict_get_or indata (py "title") (PyStr (py "Apache " ++ pmc)) in
    match check_ownership w cred pmc [] with
    | (inr c, l1) => (inr c, l1)
    | (inl _, l1) =>
        match find_place w server cred reponame pmc private [] with
        | (inr c, l2) => (inr c, l1 ++ l2)
        | (inl place, l2) =>
            let done :=
              make_repository w server cred indata reponame pmc title private
                (fst place) (snd place) [] in
            (fst done, l1 ++ l2 ++ snd done)
        end
    end.
Proof.
  intros Hc Hn Hm. unfold create_steps. rewrite Hc, Hn, Hm. cbv zeta.
  rewrite bind_run.
  2:{ intros ?. apply framed_bind; [apply framed_find_place|].
      intros ?. apply framed_make_repository. }
  destruct (check_ownership w cred _ []) as [[u|c] l1]; [|reflexivity].
  rewrite bind_run by (intros ?; apply framed_make_repository).
  destruct (find_place w server cred reponame _ _ []) as [[place|c] l2]; reflexivity.
Qed.

(** Without credentials, a name that is no string, or a name the pattern
    does not take, the branch asks nothing of the world. *)
Lemma create_log_early w server session indata :
  create_log w server session indata <> [] ->
  exists cred reponame m pmc,
    credentials session = Some cred
    /\ dict_get indata (py "repository") = PyStr reponame
    /\ re_match REPO_NAME reponame = Some m
    /\ m !! 1%nat = Some pmc.
Proof.
  unfold create_log, create_steps.
  destruct (credentials session) as [cred|]; [|intros H; now destruct H].
  destruct (dict_get indata (py "repository")) as [| | |reponame| | | |];
    try (intros H; now destruct H).
  destruct (re_match REPO_NAME reponame) as [m|] eqn:Em; [|intros H; now destruct H].
  intros _. destruct (repo_name_parts _ _ Em) as (pre & pmc & rest & tail & _ & H1 & _).
  exists cred, reponame, m, pmc. auto.
Qed.

(** X13: whatever the world answers, the branch changes something outside
    (a directory, a file, a program run, the request to GitHub, a mail)
    only for a name the pattern takes and a user who may create
    repositories of its project; and when the repository is to be
    private, only for the staff. *)
Theorem create_needs_authorisation (w : World) (server : Config) (session : Session)
    (indata : pydict) (e : Effect) :
  In e (create_log w server session indata) ->
  changes_something e = true ->
  exists cred reponame m pmc,
    credentials session = Some cred
    /\ dict_get indata (py "repository") = PyStr reponame
    /\ re_match REPO_NAME reponame = Some m
    /\ m !! 1%nat = Some pmc
    /\ authorised w cred pmc
    /\ (truthy (dict_get_or indata (py "private") (PyBool false)) = true ->
        admin cred = true).
Proof.
  intros Hin He.
  destruct (create_log_early w server session indata)
    as (cred & reponame & m & pmc & Hc & Hn & Hm & H1); [intros E; now rewrite E in Hin|].
  exists cred, reponame, m, pmc. repeat (split; [assumption|]).
  unfold create_log in Hin. rewrite (create_steps_run _ _ _ _ _ _ _ Hc Hn Hm) in Hin.
  cbv zeta in Hin. rewrite (group_lookup _ _ _ H1) in Hin.
  destruct (check_ownership w cred pmc []) as [r1 l1] eqn:E1.
  destruct (check_ownership_run _ _ _ _ _ E1) as [Hl1 Hr1].
  rewrite List.Forall_forall in Hl1.
  destruct r1 as [u|c]; [|simpl in Hin; specialize (Hl1 _ Hin); congruence].
  split; [now apply (Hr1 u)|].
  destruct (find_place w server cred reponame pmc _ []) as [r2 l2] eqn:E2.
  destruct (find_place_run _ _ _ _ _ _ _ _ E2) as [Hl2 Hr2].
  destruct r2 as [place|c]; simpl in Hin.
  - intros Hp. now apply (Hr2 place eq_refl).
  - apply in_app_or in Hin as [Hin|Hin]; [specialize (Hl1 _ Hin); congruence|].
    intros _. apply Hl2. intros E. now rewrite E in Hin.
Qed.

Lemma create_needs_authorisation_witness :
  exists e cred reponame m pmc,
    In e (create_log fair_world (sample_config true) committer
            (create_request (py "sling-foo.git") false))
    /\ changes_something e = true
    /\ credentials committer = Some cred
    /\ dict_get (create_request (py "sling-foo.git") false) (py "repository")
       = PyStr reponame
    /\ re_match REPO_NAME reponame = Some m
    /\ m !! 1%nat = Some pmc
    /\ authorised fair_world cred pmc
    /\ (truthy (dict_get_or (create_request (py "sling-foo.git") false)
                  (py "private") (PyBool false)) = true ->
        admin cred = true).
Proof.
  pose (e := RunProgram
               [PyStr GB_CLONE_EXEC; PyStr (py "-c");
                PyStr (py "commits@sling.apache.org"); PyStr (py "-d");
                PyStr (py "Apache sling"); PyStr (py "git@github:apache/sling-foo.git");
                PyStr (py "/x1/repos/asf/sling-foo.git")]).
  assert (Hin : In e (create_log fair_world (sample_config true) committer
                        (create_request (py "sling-foo.git") false)))
    by (vm_compute; tauto).
  assert (He : changes_something e = true) by reflexivity.
  destruct (create_needs_authorisation _ _ _ _ _ Hin He)
    as (cred & reponame & m & pmc & H).
  exists e, cred, reponame, m, pmc. auto.
Defined.

Lemma refusal_not_created (msg : pyval) : Return (refusal msg) <> Return created.
Proof. unfold refusal, created. discriminate. Qed.

Ltac not_created :=
  let E := fresh in
  intros E;
  first [ discriminate E
        | injection E as <- _; first [apply refusal_not_created | discriminate] ].

Lemma check_ownership_refuses w cred pmc c l :
  check_ownership w cred pmc [] = (inr c, l) -> c <> Return created.
Proof.
  unfold check_ownership, bind, ask, ret, leave.
  destruct (negb (admin cred) && _); [|discriminate].
  destruct (ldap_get_members w pmc) as [cl [|p pl]|tb];
    [| destruct (negb (in_list (uid cred) (p :: pl))) |].
  all: not_created.
Qed.

Lemma prepare_private_refuses w pmc pmc_dir c l :
  prepare_private w pmc pmc_dir [] = (inr c, l) -> c <> Return created.
Proof.
  unfold prepare_private, bind, call, ask, ret, leave.
  destruct (negb (path_isdir w pmc_dir)); [|not_created].
  destruct (mkdir_error w pmc_dir); [not_created|].
  destruct (write_error w _ (gitwebconf_text pmc pmc_dir)); [not_created|].
  destruct (write_error w _ (htaccess_text pmc)); [not_created|].
  destruct (run_program w apache_graceful) as [rc err|tb]; [|not_created].
  destruct (negb (rc =? 0)%Z); not_created.
Qed.

Lemma find_place_refuses w server cred reponame pmc private c l :
  find_place w server cred reponame pmc private [] = (inr c, l) -> c <> Return created.
Proof.
  unfold find_place, already_exists. cbv zeta.
  destruct (negb (truthy private)); [destruct (path_exists w _); not_created|].
  destruct (negb (admin cred)); [not_created|].
  rewrite bind_run by (intros ?; repeat framed_step).
  destruct (prepare_private w pmc _ []) as [[u|c'] l1] eqn:E.
  - destruct (path_exists w _); not_created.
  - intros [= <- _]. eapply prepare_private_refuses. exact E.
Qed.

(** What [make_repository] has done when it ends with the good news. *)
Lemma make_repository_created w server cred indata reponame pmc title private gb path l :
  make_repository w server cred indata reponame pmc title private gb path []
    = (inr (Return created), l) ->
  exists before url json hdrs body argv err p added sender rcpts subject message,
    l = before ++ [HttpPost url json hdrs; RunProgram (PyStr GB_CLONE_EXEC :: argv);
                   AppendFile p added; SendMail sender rcpts subject message]
    /\ http_post w url json = HttpResponse 201 body
    /\ run_program w (PyStr GB_CLONE_EXEC :: argv) = Exited 0 err
    /\ write_error w p added = None
    /\ mail_error w = None.
Proof.
  unfold make_repository, create_repo, bind, call, ask, ret, leave. cbv zeta.
  destruct (truthy private);
    [destruct (write_error w (GB_GITWEB_PATH pmc) _); [discriminate|]|];
    (destruct (http_post w _ _) as [st body|tb] eqn:Eh; [|discriminate];
     destruct (st =? 201)%Z eqn:Est; [|discriminate];
     apply Z.eqb_eq in Est; subst st;
     destruct (run_program w _) as [rc err|tb] eqn:Er; [|discriminate];
     destruct (rc =? 0)%Z eqn:Erc; [|discriminate];
     apply Z.eqb_eq in Erc; subst rc;
     destruct (write_error w (path_join path _) _) eqn:Ew; [discriminate|];
     destruct (mail_error w) eqn:Em; [discriminate|];
     intros [= <-]).
  - eexists [_]. do 12 eexists. split; [reflexivity|]. eauto.
  - eexists []. do 12 eexists. split; [reflexivity|]. eauto.
Qed.

(** X14: the branch says ["Repository created!"] only when GitHub has
    answered 201 to its request, the clone has exited with 0, the
    [config] of the clone has been added to and the mail has been sent,
    in this order and as the last four things it did. *)
Theorem created_only_when_done (w : World) (server : Config) (session : Session)
    (indata : pydict) :
  create_outcome w server session indata = Return created ->
  exists before url json hdrs body argv err p added sender rcpts subject message,
    create_log w server session indata
      = before ++ [HttpPost url json hdrs; RunProgram (PyStr GB_CLONE_EXEC :: argv);
                   AppendFile p added; SendMail sender rcpts subject message]
    /\ http_post w url json = HttpResponse 201 body
    /\ run_program w (PyStr GB_CLONE_EXEC :: argv) = Exited 0 err
    /\ write_error w p added = None
    /\ mail_error w = None.
Proof.
  intros H.
  assert (E0 : exists cred reponame m,
             credentials session = Some cred
             /\ dict_get indata (py "repository") = PyStr reponame
             /\ re_match REPO_NAME reponame = Some m).
  { unfold create_outcome, create_steps in H.
    destruct (credentials session) as [cred|] eqn:Hc;
      [|cbv beta iota delta [leave fst] in H; discriminate H].
    destruct (dict_get indata (py "repository")) as [| | |reponame| | | |] eqn:Hn;
      try (cbv beta iota delta [leave fst] in H; discriminate H).
    destruct (re_match REPO_NAME reponame) as [m|] eqn:Hm;
      [exists cred, reponame, m; repeat split; assumption|].
    cbv beta iota delta [leave fst] in H. now apply refusal_not_created in H. }
  destruct E0 as (cred & reponame & m & Hc & Hn & Hm).
  unfold create_outcome in H. unfold create_log.
  rewrite (create_steps_run _ _ _ _ _ _ _ Hc Hn Hm) in *. cbv zeta in *.
  destruct (check_ownership w cred _ []) as [[u|c] l1] eqn:E1;
    [|now apply check_ownership_refuses in E1].
  destruct (find_place w server cred reponame _ _ []) as [[place|c] l2] eqn:E2;
    [|now apply find_place_refuses in E2].
  destruct (make_repository w server cred indata reponame _ _ _ _ _ [])
    as [[[]|c] l3] eqn:E3.
  simpl in H. subst c.
  apply make_repository_created in E3
    as (before & url & json & hdrs & body & argv & err & p & added & sender & rcpts
        & subject & message & -> & Hrest).
  exists (l1 ++ l2 ++ before), url, json, hdrs, body, argv, err, p, added, sender,
    rcpts, subject, message.
  split; [simpl; now rewrite <- !app_assoc|exact Hrest].
Qed.

Lemma created_only_when_done_witness :
  exists before url json hdrs body argv err p added sender rcpts subject message,
    create_log fair_world (sample_config true) committer
        (create_request (py "sling-foo.git") false)
      = before ++ [HttpPost url json hdrs; RunProgram (PyStr GB_CLONE_EXEC :: argv);
                   AppendFile p added; SendMail sender rcpts subject message]
    /\ http_post fair_world url json = HttpResponse 201 body
    /\ run_program fair_world (PyStr GB_CLONE_EXEC :: argv) = Exited 0 err
    /\ write_error fair_world p added = None
    /\ mail_error fair_world = None.
Proof.
  apply created_only_when_done. vm_compute. reflexivity.
Defined.

Lemma lower_alnum_dash (c : N) : lower_alnum c = true -> dash_lower_alnum c = true.
Proof.
  unfold lower_alnum, dash_lower_alnum.
  destruct ((97 <=? c) && (c <=? 122)), ((48 <=? c) && (c <=? 57)), (c =? 45);
    simpl; congruence.
Qed.

Lemma repo_name_chars (name : pystr) (m : gmap nat pystr) :
  re_match REPO_NAME name = Some m -> Forall name_char name.
Proof.
  intros (pre & pmc & rest & tail & -> & _ & Hpre & _ & Hpmc & Hrest & Htail)%repo_name_parts.
  repeat apply Forall_app_2.
  - destruct Hpre as [->| ->]; [constructor|].
    apply List.Forall_forall. intros x Hx. vm_compute in Hx.
    repeat (destruct Hx as [<-|Hx]; [now left|]). destruct Hx.
  - eapply Forall_impl; [exact Hpmc|]. intros c Hc. left. now apply lower_alnum_dash.
  - destruct Hrest as [->|(d & -> & _ & Hd)]; [constructor|].
    apply Forall_app_2; [constructor; [now left|constructor]|].
    eapply Forall_impl; [exact Hd|]. intros c Hc. now left.
  - apply List.Forall_forall. intros x Hx. vm_compute in Hx.
    destruct Hx as [<-|Hx]; [right; now left|].
    repeat (destruct Hx as [<-|Hx]; [now left|]). destruct Hx.
  - destruct Htail as [->| ->]; [constructor|].
    constructor; [right; now right|constructor].
Qed.

Lemma repo_name_no_slash (name : pystr) (m : gmap nat pystr) :
  re_match REPO_NAME name = Some m -> ~ In SLASH name.
Proof.
  intros Hc%repo_name_chars Hin. rewrite List.Forall_forall in Hc.
  destruct (Hc _ Hin) as [H|[H|H]]; discriminate H.
Qed.

(** X15: a name that holds a character other than [a-z], [0-9], the dash,
    the dot and the newline is refused as invalid, and nothing at all is
    asked of the world for it: no slash, no upper case and no blank come
    near a path, a program or GitHub. *)
Theorem foreign_character_refused (w : World) (server : Config) (session : Session)
    (indata : pydict) (cred : Credentials) (reponame : pystr) (c : N) :
  credentials session = Some cred ->
  dict_get indata (py "repository") = PyStr reponame ->
  In c reponame ->
  dash_lower_alnum c = false -> c <> 46 -> c <> NL ->
  create_outcome w server session indata
    = Return (refusal (PyStr (py "Invalid repository name specified")))
  /\ create_log w server session indata = [].
Proof.
  intros Hc Hn Hin Hd Hdot Hnl.
  assert (Hm : re_match REPO_NAME reponame = None).
  { destruct (re_match REPO_NAME reponame) as [m|] eqn:Em; [exfalso|reflexivity].
    apply repo_name_chars in Em. rewrite List.Forall_forall in Em.
    destruct (Em _ Hin) as [H|[H|H]]; congruence. }
  unfold create_outcome, create_log, create_steps. rewrite Hc, Hn, Hm. split; reflexivity.
Qed.

Lemma foreign_character_refused_witness :
  create_outcome fair_world (sample_config true) staff
      (create_request (py "../../etc/x.git") false)
    = Return (refusal (PyStr (py "Invalid repository name specified")))
  /\ create_log fair_world (sample_config true) staff
       (create_request (py "../../etc/x.git") false) = [].
Proof.
  apply (foreign_character_refused fair_world (sample_config true) staff
           (create_request (py "../../etc/x.git") false)
           (mkCredentials (py "root") true true) (py "../../etc/x.git") SLASH);
    try reflexivity; try discriminate.
  vm_compute. tauto.
Defined.

(** * Where the repository is put *)

Lemma startswith_slash (s : pystr) : ~ In SLASH s -> startswith s [SLASH] = false.
Proof.
  intros Hn. destruct (startswith s [SLASH]) eqn:E; [exfalso|reflexivity].
  apply startswith_spec in E as [s' ->]. apply Hn. now left.
Qed.

Lemma path_join2_plain (root name : pystr) :
  ~ In SLASH name -> path_join2 root name = root ++ separator root ++ name.
Proof.
  intros Hn. unfold path_join2, separator. rewrite (startswith_slash _ Hn).
  now destruct (_ || _).
Qed.

Lemma endswith_last (a b : pystr) (c : N) :
  b <> [] -> endswith (a ++ b) [c] = true -> In c b.
Proof.
  intros Hb [p E]%endswith_spec.
  destruct (exists_last Hb) as (b' & x & ->).
  rewrite !app_assoc in E. apply app_inj_tail in E as [_ ->].
  apply in_or_app. right. now left.
Qed.

(** X16: the repository is put right into the directory it belongs to.
    For a name the pattern takes, the path of a public repository is the
    public directory, a slash unless the directory ends in one, and the
    name; the path of a private one is the private directory, the project
    and the name, with slashes between.  Neither the name nor the project
    holds a slash. *)
Theorem repository_path_inside (root reponame pmc : pystr) (m : gmap nat pystr) :
  re_match REPO_NAME reponame = Some m ->
  m !! 1%nat = Some pmc ->
  path_join root [reponame] = root ++ separator root ++ reponame
  /\ path_join root [pmc; reponame]
     = root ++ separator root ++ pmc ++ SLASH :: reponame
  /\ ~ In SLASH reponame
  /\ ~ In SLASH pmc.
Proof.
  intros Hm H1.
  pose proof (repo_name_no_slash _ _ Hm) as Hname.
  destruct (repo_name_parts _ _ Hm)
    as (pre & pmc' & rest & tail & _ & H1' & _ & Hne & Hall & _).
  assert (pmc' = pmc) as -> by (unfold pystr in *; congruence).
  assert (Hpmc : ~ In SLASH pmc).
  { intros Hin. rewrite List.Forall_forall in Hall. discriminate (Hall _ Hin). }
  split; [apply path_join2_plain, Hname|]. split; [|auto].
  unfold path_join. simpl. rewrite (path_join2_plain root pmc Hpmc).
  unfold path_join2 at 1. rewrite (startswith_slash _ Hname).
  destruct (root ++ separator root ++ pmc) as [|x p] eqn:E.
  - apply app_eq_nil in E as [_ E]. apply app_eq_nil in E as [_ E]. congruence.
  - rewrite <- E. simpl orb.
    destruct (endswith (root ++ separator root ++ pmc) [SLASH]) eqn:Ee.
    + exfalso. rewrite app_assoc in Ee. apply endswith_last in Ee; auto.
    + now rewrite <- !app_assoc.
Qed.

Lemma repository_path_inside_witness :
  exists m,
    re_match REPO_NAME (py "sling-foo.git") = Some m
    /\ path_join (py "/x1/repos/asf") [py "sling-foo.git"]
       = py "/x1/repos/asf" ++ separator (py "/x1/repos/asf") ++ py "sling-foo.git"
    /\ path_join (py "/x1/repos/asf") [py "sling"; py "sling-foo.git"]
       = py "/x1/repos/asf" ++ separator (py "/x1/repos/asf") ++ py "sling"
           ++ SLASH :: py "sling-foo.git"
    /\ ~ In SLASH (py "sling-foo.git")
    /\ ~ In SLASH (py "sling").
Proof.
  destruct (re_match REPO_NAME (py "sling-foo.git")) as [m|] eqn:E;
    [|vm_compute in E; discriminate E].
  exists m. split; [reflexivity|].
  apply (repository_path_inside _ _ _ m E).
  vm_compute in E. injection E as <-. vm_compute. reflexivity.
Defined.

(** X17: when the staff asks for a private repository of a project that
    has no directory yet and the reload of Apache exits with another code
    than 0, the branch does not return its message about the security
    controls: it raises, on [stderr.encode], after it has made the
    directory and written the two files; GitHub is not asked. *)
Theorem apache_failure_raises (w : World) (server : Config) (session : Session)
    (indata : pydict) (cred : Credentials) (reponame pmc : pystr)
    (m : gmap nat pystr) (returncode : Z) (stderr_str : pystr) :
  credentials session = Some cred ->
  admin cred = true ->
  dict_get indata (py "repository") = PyStr reponame ->
  re_match REPO_NAME reponame = Some m ->
  m !! 1%nat = Some pmc ->
  truthy (dict_get_or indata (py "private") (PyBool false)) = true ->
  path_isdir w (path_join (repos_private server) [pmc]) = false ->
  mkdir_error w (path_join (repos_private server) [pmc]) = None ->
  write_error w (py "/x1/gitbox/conf/httpd/gitweb." ++ pmc ++ py ".pl")
    (gitwebconf_text pmc (path_join (repos_private server) [pmc])) = None ->
  write_error w (py "/x1/gitbox/conf/httpd/htaccess." ++ pmc) (htaccess_text pmc) = None ->
  run_program w apache_graceful = Exited returncode stderr_str ->
  returncode <> 0%Z ->
  create_outcome w server session indata = Raise (attribute_error w)
  /\ create_log w server session indata
     = [MakeDir (path_join (repos_private server) [pmc]);
        WriteFile (py "/x1/gitbox/conf/httpd/gitweb." ++ pmc ++ py ".pl")
          (gitwebconf_text pmc (path_join (repos_private server) [pmc]));
        WriteFile (py "/x1/gitbox/conf/httpd/htaccess." ++ pmc) (htaccess_text pmc);
        RunProgram apache_graceful].
Proof.
  intros Hc Ha Hn Hm H1 Hp Hdir Hmk Hw1 Hw2 Hrun Hrc.
  unfold create_outcome, create_log.
  rewrite (create_steps_run _ _ _ _ _ _ _ Hc Hn Hm). cbv zeta.
  rewrite (group_lookup _ _ _ H1).
  assert (E1 : check_ownership w cred pmc [] = (inl tt, [])).
  { unfold check_ownership. now rewrite Ha. }
  rewrite E1.
  assert (E2 : find_place w server cred reponame pmc
                 (dict_get_or indata (py "private") (PyBool false)) []
               = (inr (Raise (attribute_error w)),
                  [MakeDir (path_join (repos_private server) [pmc]);
                   WriteFile (py "/x1/gitbox/conf/httpd/gitweb." ++ pmc ++ py ".pl")
                     (gitwebconf_text pmc (path_join (repos_private server) [pmc]));
                   WriteFile (py "/x1/gitbox/conf/httpd/htaccess." ++ pmc)
                     (htaccess_text pmc);
                   RunProgram apache_graceful])).
  { unfold find_place. cbv zeta. rewrite Hp, Ha. cbn [negb].
    unfold prepare_private, bind, call, ask, leave.
    rewrite Hdir. cbn [negb]. rewrite Hmk, Hw1, Hw2, Hrun.
    destruct (returncode =? 0)%Z eqn:Ez; [apply Z.eqb_eq in Ez; contradiction|].
    reflexivity. }
  rewrite E2. split; reflexivity.
Qed.

Lemma apache_failure_raises_witness :
  create_outcome apache_down_world (sample_config true) staff
      (create_request (py "incubator-foo.git") true)
    = Raise (attribute_error apache_down_world)
  /\ create_log apache_down_world (sample_config true) staff
       (create_request (py "incubator-foo.git") true)
     = [MakeDir (path_join (repos_private (sample_config true)) [py "foo"]);
        WriteFile (py "/x1/gitbox/conf/httpd/gitweb." ++ py "foo" ++ py ".pl")
          (gitwebconf_text (py "foo")
             (path_join (repos_private (sample_config true)) [py "foo"]));
        WriteFile (py "/x1/gitbox/conf/httpd/htaccess." ++ py "foo")
          (htaccess_text (py "foo"));
        RunProgram apache_graceful].
Proof.
  destruct (re_match REPO_NAME (py "incubator-foo.git")) as [m|] eqn:E;
    [|vm_compute in E; discriminate E].
  apply (apache_failure_raises apache_down_world (sample_config true) staff
           (create_request (py "incubator-foo.git") true)
           (mkCredentials (py "root") true true) (py "incubator-foo.git") (py "foo")
           m 1 (py "b'failed'")); try reflexivity; try exact E.
  - vm_compute in E. injection E as <-. vm_compute. reflexivity.
  - discriminate.
Defined.

(** * The request to GitHub *)

Ltac destruct_innermost :=
  match goal with
  | |- context [match ?x with _ => _ end] =>
      lazymatch x with
      | context [match _ with _ => _ end] => fail
      | _ => destruct x
      end
  end.

Lemma prepare_private_posts w pmc pmc_dir :
  Forall (fun e => is_post e = false) (snd (prepare_private w pmc pmc_dir [])).
Proof.
  unfold prepare_private, bind, call, ask, ret, leave.
  repeat destruct_innermost; simpl; repeat constructor.
Qed.

Lemma find_place_posts w server cred reponame pmc private :
  Forall (fun e => is_post e = false)
    (snd (find_place w server cred reponame pmc private [])).
Proof.
  unfold find_place. cbv zeta.
  destruct (negb (truthy private)); [destruct (path_exists w _); constructor|].
  destruct (negb (admin cred)); [constructor|].
  rewrite bind_run by (intros ?; repeat framed_step).
  pose proof (prepare_private_posts w pmc
                (path_join (repos_private server) [pmc])) as H.
  destruct (prepare_private w pmc _ []) as [[u|c] l1]; simpl in *; [|exact H].
  destruct (path_exists w _); simpl; now rewrite app_nil_r.
Qed.

Lemma make_repository_posts w server cred indata reponame pmc title private gb path
    url json hdrs :
  In (HttpPost url json hdrs)
    (snd (make_repository w server cred indata reponame pmc title private gb path [])) ->
  url = py "https://api.github.com/orgs/" ++ github_org server ++ py "/repos"
  /\ json = github_request server reponame title pmc private
  /\ hdrs = [(py "Authorization", py "token " ++ github_token w)].
Proof.
  unfold make_repository, create_repo, github_request, bind, call, ask, ret, leave.
  cbv zeta.
  repeat destruct_innermost; simpl; intros H;
    repeat (destruct H as [H|H]; [try discriminate H; injection H as <- <- <-; auto|]);
    destruct H.
Qed.

(** X18: every request the branch sends to GitHub goes to the
    repositories of the configured organisation, with the token of the
    configuration, and asks for a repository of the name given, with the
    home page of its project and without issues, projects and wiki. *)
Theorem github_request_shape (w : World) (server : Config) (session : Session)
    (indata : pydict) (url : pystr) (json : pyval) (hdrs : list (pystr * pystr)) :
  In (HttpPost url json hdrs) (create_log w server session indata) ->
  exists reponame m pmc,
    dict_get indata (py "repository") = PyStr reponame
    /\ re_match REPO_NAME reponame = Some m
    /\ m !! 1%nat = Some pmc
    /\ url = py "https://api.github.com/orgs/" ++ github_org server ++ py "/repos"
    /\ json = github_request server reponame
                (dict_get_or indata (py "title") (PyStr (py "Apache " ++ pmc)))
                pmc (dict_get_or indata (py "private") (PyBool false))
    /\ hdrs = [(py "Authorization", py "token " ++ github_token w)].
Proof.
  intros Hin.
  destruct (create_log_early w server session indata)
    as (cred & reponame & m & pmc & Hc & Hn & Hm & H1); [intros E; now rewrite E in Hin|].
  exists reponame, m, pmc. repeat (split; [assumption|]).
  unfold create_log in Hin. rewrite (create_steps_run _ _ _ _ _ _ _ Hc Hn Hm) in Hin.
  cbv zeta in Hin. rewrite (group_lookup _ _ _ H1) in Hin.
  destruct (check_ownership w cred pmc []) as [r1 l1] eqn:E1.
  destruct (check_ownership_run _ _ _ _ _ E1) as [Hl1 _].
  rewrite List.Forall_forall in Hl1.
  pose proof (find_place_posts w server cred reponame pmc
                (dict_get_or indata (py "private") (PyBool false))) as Hl2.
  rewrite List.Forall_forall in Hl2.
  destruct r1 as [u|c]; [|simpl in Hin; specialize (Hl1 _ Hin); discriminate Hl1].
  destruct (find_place w server cred reponame pmc _ []) as [[place|c] l2];
    simpl in Hin, Hl2.
  - apply in_app_or in Hin as [Hin|Hin]; [specialize (Hl1 _ Hin); discriminate Hl1|].
    apply in_app_or in Hin as [Hin|Hin]; [specialize (Hl2 _ Hin); discriminate Hl2|].
    now apply make_repository_posts in Hin.
  - apply in_app_or in Hin as [Hin|Hin]; [specialize (Hl1 _ Hin); discriminate Hl1|].
    specialize (Hl2 _ Hin). discriminate Hl2.
Qed.

Lemma github_request_shape_witness :
  exists url json hdrs reponame m pmc,
    In (HttpPost url json hdrs)
       (create_log fair_world (sample_config true) committer
          (create_request (py "sling-foo.git") false))
    /\ dict_get (create_request (py "sling-foo.git") false) (py "repository")
       = PyStr reponame
    /\ re_match REPO_NAME reponame = Some m
    /\ m !! 1%nat = Some pmc
    /\ url = py "https://api.github.com/orgs/" ++ github_org (sample_config true)
               ++ py "/repos"
    /\ json = github_request (sample_config true) reponame
                (dict_get_or (create_request (py "sling-foo.git") false) (py "title")
                   (PyStr (py "Apache " ++ pmc)))
                pmc
                (dict_get_or (create_request (py "sling-foo.git") false) (py "private")
                   (PyBool false))
    /\ hdrs = [(py "Authorization", py "token " ++ github_token fair_world)].
Proof.
  pose (url := py "https://api.github.com/orgs/apache/repos").
  pose (json := github_request (sample_config true) (py "sling-foo.git")
                  (PyStr (py "Apache sling")) (py "sling") (PyBool false)).
  pose (hdrs := [(py "Authorization", py "token s3cr3t")]).
  assert (Hin : In (HttpPost url json hdrs)
                  (create_log fair_world (sample_config true) committer
                     (create_request (py "sling-foo.git") false)))
    by (vm_compute; tauto).
  destruct (github_request_shape _ _ _ _ _ _ _ Hin) as (reponame & m & pmc & H).
  exists url, json, hdrs, reponame, m, pmc. split; [exact Hin|exact H].
Defined.

(** * The branch behind [handle_request] *)

Ltac plain :=
  unfold ends_plainly, plain_ending; simpl;
  first [ exact I
        | left; eexists; reflexivity
        | right; left; reflexivity
        | right; right; eexists; reflexivity ].

Lemma check_ownership_plain w cred pmc : ends_plainly (check_ownership w cred pmc []).
Proof.
  unfold check_ownership, bind, call, ask, ret, leave.
  repeat destruct_innermost; plain.
Qed.

Lemma find_place_plain w server cred reponame pmc private :
  ends_plainly (find_place w server cred reponame pmc private []).
Proof.
  unfold find_place, prepare_private, already_exists, bind, call, ask, ret, leave.
  cbv zeta. repeat destruct_innermost; plain.
Qed.

Lemma make_repository_plain w server cred indata reponame pmc title private gb path :
  ends_plainly
    (make_repository w server cred indata reponame pmc title private gb path []).
Proof.
  unfold make_repository, create_repo, bind, call, ask, ret, leave. cbv zeta.
  repeat destruct_innermost; plain.
Qed.

Lemma create_outcome_plain w server session indata :
  plain_ending (create_outcome w server session indata).
Proof.
  unfold create_outcome, create_steps.
  destruct (credentials session) as [cred|] eqn:Hc; [|plain].
  destruct (dict_get indata (py "repository")) as [| | |reponame| | | |] eqn:Hn;
    try plain.
  destruct (re_match REPO_NAME reponame) as [m|] eqn:Hm; [|plain].
  fold (create_steps w server session indata).
  pose proof (create_steps_run w server session indata cred reponame m Hc Hn Hm) as E.
  unfold create_steps in E at 1. rewrite Hc, Hn, Hm in E. rewrite E. cbv zeta.
  pose proof (check_ownership_plain w cred (group m 1)) as P1.
  destruct (check_ownership w cred _ []) as [[u|c] l1]; [|exact P1].
  pose proof (find_place_plain w server cred reponame (group m 1)
                (dict_get_or indata (py "private") (PyBool false))) as P2.
  destruct (find_place w server cred reponame _ _ []) as [[place|c] l2]; [|exact P2].
  pose proof (make_repository_plain w server cred indata reponame (group m 1)
                (dict_get_or indata (py "title") (PyStr (py "Apache " ++ group m 1)))
                (dict_get_or indata (py "private") (PyBool false))
                (fst place) (snd place)) as P3.
  unfold ends_plainly in P3.
  destruct (make_repository w server cred indata reponame _ _ _ _ _ [])
    as [[[]|c] l3]. exact P3.
Qed.

(** X19: a request to create a repository, from a session with
    credentials, is answered with status 200 and the mapping of the branch
    as JSON whenever the branch returns, a refusal as well as the good
    news, and with status 500 when the branch raises; it is never
    answered with 404. *)
Theorem create_answer_status (w : World) (srv : Server) (env : Env) (req : Request)
    (indata : pydict) (cred : Credentials) :
  fst (route (path req)) = py "repository" ->
  handlers srv !! py "repository" = Some (register (create w) (config srv)) ->
  parse_formdata env (snd (route (path req))) req = Parsed indata ->
  credentials (get_session env req) = Some cred ->
  dict_get indata (py "action") = PyStr (py "create") ->
  exists o,
    handle_request srv env req = Responded o
    /\ match create_outcome w (config srv) (get_session env req) indata with
       | Return v =>
           status (response o) = 200%Z
           /\ json_dumps (limits env) v = Some (text (response o))
       | Raise tb => status (response o) = 500%Z
       end.
Proof.
  intros Hr Hl Hp Hc Ha.
  assert (Hproc : process (create w) (config srv) (get_session env req) indata
                  = (create_outcome w (config srv) (get_session env req) indata,
                     get_session env req)).
  { unfold process. rewrite Hc, Ha. unfold eq_str. now rewrite pystr_eqb_refl. }
  rewrite handle_request_routed. simpl. rewrite Hp, Hr, Hl.
  unfold register. cbn [exec]. rewrite Hproc.
  destruct (create_outcome_plain w (config srv) (get_session env req) indata)
    as [[tb E]|[E|[msg E]]]; rewrite E.
  - eexists. split; [reflexivity|].
    unfold contain. now destruct (traceback (config srv)).
  - change (truthy created && negb (is_response created)) with true. cbv iota.
    destruct (json_dumps_structured (limits env) created eq_refl eq_refl) as [js Hjs].
    rewrite Hjs. eexists. split; [reflexivity|]. now split.
  - change (truthy (refusal (PyStr msg)) && negb (is_response (refusal (PyStr msg))))
      with true. cbv iota.
    destruct (json_dumps_structured (limits env) (refusal (PyStr msg)) eq_refl eq_refl)
      as [js Hjs].
    rewrite Hjs. eexists. split; [reflexivity|]. now split.
Qed.

Lemma create_answer_status_witness :
  exists o,
    handle_request
      (mkServer (sample_config true)
         {[ py "repository" := register (create fair_world) (sample_config true) ]})
      (sample_env (Parsed (create_request (py "Sling.git") false)) committer)
      (mkRequest (py "/api/repository.json") []) = Responded o
    /\ status (response o) = 200%Z
    /\ json_dumps sample_limits
         (refusal (PyStr (py "Invalid repository name specified")))
       = Some (text (response o)).
Proof.
  destruct (create_answer_status fair_world
              (mkServer (sample_config true)
                 {[ py "repository" := register (create fair_world) (sample_config true) ]})
              (sample_env (Parsed (create_request (py "Sling.git") false)) committer)
              (mkRequest (py "/api/repository.json") [])
              (create_request (py "Sling.git") false)
              (mkCredentials (py "janedoe") false false))
    as (o & Ho & Hs); try (vm_compute; reflexivity).
  exists o. split; [exact Ho|].
  change (create_outcome fair_world
            (config (mkServer (sample_config true)
               {[ py "repository" := register (create fair_world) (sample_config true) ]}))
            (get_session
               (sample_env (Parsed (create_request (py "Sling.git") false)) committer)
               (mkRequest (py "/api/repository.json") []))
            (create_request (py "Sling.git") false))
    with (Return (refusal (PyStr (py "Invalid repository name specified")))) in Hs.
  exact Hs.
Defined.
